(** * nerwhal: recognition core (src/nerwhal/core.py) and its backends

    A shallow embedding of [nerwhal.core] ([Core.update_config],
    [Core._add_examples_to_config_recognizer_paths], [Core._run_in_parallel],
    [recognize]), of [nerwhal.backends.load], and of the two backends under
    [src/nerwhal/backends].

    Python exceptions are values of [Exc].  A computation either returns,
    raises, or never returns ([Hang]).  [Core] is stateful: its methods run in
    a state-and-exception monad [M] in which a raised exception keeps the
    state reached so far, as Python does (assignments made before a [raise]
    are not undone).  The caller's [Config] objects live in a heap, so that
    [self.config] and the caller's argument are the same object.

    Scores are Python floats; they are modelled by rationals [Q]. *)

From Stdlib Require Import QArith Ascii.
From stdpp Require Import base list gmap strings.

Open Scope string_scope.
Open Scope list_scope.

(** ** Python values *)

Inductive Exc :=
| ValueError (msg : string)
| KeyError (key : string)
| AttributeError (attr : string)
| TypeError
| NotImplementedError
| EOFError
| OSError.

(** Outcome of a Python computation. *)
Inductive Res (A : Type) :=
| Ok (a : A)
| Exn (e : Exc)
| Hang.
Arguments Ok {A} a.
Arguments Exn {A} e.
Arguments Hang {A}.

Global Instance Res_ret : MRet Res := fun A a => Ok a.
Global Instance Res_bind : MBind Res := fun A B f r =>
  match r with
  | Ok a => f a
  | Exn e => Exn e
  | Hang => Hang
  end.

(** [nerwhal.types.NamedEntity] (module not under src/); the fields the code
    reads and writes.  [start_tok]/[end_tok] are set by [add_token_indices]. *)
Record NamedEntity := mkEntity {
  start_char : nat;
  end_char : nat;
  tag : string;
  text : string;
  score : Q;
  recognizer : string;
  start_tok : nat;
  end_tok : nat
}.

Definition set_score (e : NamedEntity) (s : Q) : NamedEntity :=
  mkEntity (start_char e) (end_char e) (tag e) (text e) s (recognizer e)
           (start_tok e) (end_tok e).

(** A token of the tokenizer: index [i] and [text]. *)
Record Token := mkToken { tok_i : nat; tok_text : string }.

(** A recognizer class as loaded by [Core._load_class].  [CONTEXT_WORDS] is
    the result of the attribute lookup [recognizer_cls.CONTEXT_WORDS]
    (through the class's bases): [None] when the class has no such
    attribute. *)
Record RecognizerCls := mkRecognizerCls {
  cls_name : string;
  BACKEND : string;
  TAG : string;
  SCORE : Q;
  CONTEXT_WORDS : option (list string);
  patterns : list string
}.

(** Python's builtin [min(x, y)]: keeps [x] unless [y < x]. *)
Definition py_min (x y : Q) : Q := if Qle_bool x y then x else y.

(** [word in lst] on a list of strings. *)
Definition py_in (w : string) (lst : list string) : bool :=
  existsb (String.eqb w) lst.

(** ** Context words (core.py, [recognize], lines 137-145) *)

Section ContextWords.
(** [core.tokenizer.get_sentence_for_token]. *)
Variable get_sentence_for_token : nat -> list Token.
(** [core.recognizer_lookup]. *)
Variable recognizer_lookup : gmap string RecognizerCls.
(** [core.config.context_word_confidence_boost_factor]. *)
Variable boost_factor : Q.

(** One iteration of [for ent in ents: ...]. *)
Definition boost_entity (ent : NamedEntity) : Res NamedEntity :=
  let sentence_tokens := get_sentence_for_token (start_tok ent) in
  let sentence_without_ent :=
    map tok_text (List.filter (fun t => bool_decide (tok_i t < start_tok ent)
                                   || bool_decide (end_tok ent <= tok_i t))
                         sentence_tokens) in
  match recognizer_lookup !! recognizer ent with
  | None => Exn (KeyError (recognizer ent))
  | Some cls =>
      match CONTEXT_WORDS cls with
      | None => Exn (AttributeError "CONTEXT_WORDS")
      | Some context_words =>
          if existsb (fun word => py_in word sentence_without_ent) context_words
          then Ok (set_score ent (py_min (score ent * boost_factor) 1))
          else Ok ent
      end
  end.

Fixpoint boost_context_words (ents : list NamedEntity) : Res (list NamedEntity) :=
  match ents with
  | [] => Ok []
  | ent :: rest =>
      ent' ← boost_entity ent;
      rest' ← boost_context_words rest;
      mret (ent' :: rest')
  end.
End ContextWords.

(** ** Configuration *)

(** Modelled from the spec: [nerwhal.types.Config] (module not under src/),
    "an immutable value describing a run: language/model identifier, list of
    recognizer source paths, flags to include bundled example recognizers
    and/or a statistical backend, and a context_word_confidence_boost_factor",
    compared "as a whole value" (field by field). *)
Record Config := mkConfig {
  language : string;
  recognizer_paths : list string;
  use_statistical_ner : bool;
  load_example_recognizers : bool;
  context_word_confidence_boost_factor : Q
}.

Definition config_eqb (c1 c2 : Config) : bool :=
  String.eqb (language c1) (language c2)
  && bool_decide (recognizer_paths c1 = recognizer_paths c2)
  && Bool.eqb (use_statistical_ner c1) (use_statistical_ner c2)
  && Bool.eqb (load_example_recognizers c1) (load_example_recognizers c2)
  && Qeq_bool (context_word_confidence_boost_factor c1)
              (context_word_confidence_boost_factor c2).

Definition set_recognizer_paths (c : Config) (ps : list string) : Config :=
  mkConfig (language c) ps (use_statistical_ner c) (load_example_recognizers c)
           (context_word_confidence_boost_factor c).

(** Python objects are referred to by location. *)
Abbreviation loc := positive.

(** A backend instance: its class and the names of the recognizers it was
    given. *)
Record Backend := mkBackend { backend_class : string; backend_recognizers : list string }.

(** [nerwhal.tokenizer.Tokenizer] instance, built for a language. *)
Record Tokenizer := mkTokenizer { tokenizer_language : string }.

(** The collaborators [core.py] calls and that are not part of it: the file
    system, [_load_class]'s import, the tokenizer, the backend classes, the
    combination strategies, [add_token_indices], and the operating-system
    pipes of [multiprocessing.Pipe]. *)
Record Env := mkEnv {
  isfile : string -> bool;                            (* os.path.isfile *)
  listdir_examples : Res (list string);               (* os.listdir(EXAMPLE_RECOGNIZERS_PATH) *)
  load_class : string -> Res RecognizerCls;           (* Core._load_class *)
  make_tokenizer : string -> Res Tokenizer;           (* Tokenizer(language) *)
  make_stanza : string -> Res Backend;                (* StanzaNerBackend(language) *)
  construct_backend : string * string -> Res Backend; (* backend_cls() *)
  construct_backend_lang : string * string -> string -> Res Backend; (* backend_cls(language) *)
  register_recognizer : Backend -> RecognizerCls -> Res Backend;
  backend_run : Backend -> string -> Res (list NamedEntity);
  pickled_size : list NamedEntity -> nat;             (* bytes sent by Connection.send *)
  pipe_capacity : nat;                                (* OS pipe buffer size *)
  (* whether the parent's copy of the write end of pipe [i] (of [n]) is
     closed when the parent reads pipe [i] *)
  parent_write_end_closed : nat -> nat -> bool;
  combine : list (list NamedEntity) -> string -> Res (list NamedEntity);
  tokenize : Tokenizer -> string -> list Token;       (* tokenize; get_tokens *)
  sentence_for_token : Tokenizer -> string -> nat -> list Token;
  (* Modelled from the spec: [nerwhal.utils.add_token_indices(ents, tokens)]
     (not under src/) sets [start_tok] and [end_tok] of each entity in place. *)
  set_token_indices : list Token -> NamedEntity -> NamedEntity
}.

(** ** The [Core] object and the caller's heap *)

Record Core := mkCore {
  config : option loc;
  backends : list (string * Backend);   (* a dict: insertion ordered *)
  tokenizer : option Tokenizer;
  recognizer_lookup : option (gmap string RecognizerCls)
}.

Record St := mkSt { heap : gmap loc Config; core : Core }.

(** [Core.__init__]. *)
Definition Core_init : Core := mkCore None [] None None.

Definition set_config (o : option loc) (c : Core) : Core :=
  mkCore o (backends c) (tokenizer c) (recognizer_lookup c).
Definition set_backends (b : list (string * Backend)) (c : Core) : Core :=
  mkCore (config c) b (tokenizer c) (recognizer_lookup c).
Definition set_tokenizer (t : option Tokenizer) (c : Core) : Core :=
  mkCore (config c) (backends c) t (recognizer_lookup c).
Definition set_lookup (r : option (gmap string RecognizerCls)) (c : Core) : Core :=
  mkCore (config c) (backends c) (tokenizer c) r.

(** [d[k] = v] on an insertion-ordered dict. *)
Fixpoint dict_set {V} (k : string) (v : V) (d : list (string * V)) : list (string * V) :=
  match d with
  | [] => [(k, v)]
  | (k', v') :: d' => if String.eqb k k' then (k, v) :: d' else (k', v') :: dict_set k v d'
  end.

Fixpoint dict_get {V} (k : string) (d : list (string * V)) : option V :=
  match d with
  | [] => None
  | (k', v') :: d' => if String.eqb k k' then Some v' else dict_get k d'
  end.

(** ** The state-and-exception monad *)

Definition M (A : Type) := St -> Res A * St.

Global Instance M_ret : MRet M := fun A a s => (Ok a, s).
Global Instance M_bind : MBind M := fun A B f m s =>
  match m s with
  | (Ok a, s') => f a s'
  | (Exn e, s') => (Exn e, s')
  | (Hang, s') => (Hang, s')
  end.

Definition raise {A} (e : Exc) : M A := fun s => (Exn e, s).
Definition lift {A} (r : Res A) : M A := fun s => (r, s).
Definition gets {A} (f : St -> A) : M A := fun s => (Ok (f s), s).
Definition modify_core (f : Core -> Core) : M unit :=
  fun s => (Ok tt, mkSt (heap s) (f (core s))).

(** Reading an object of the heap. *)
Definition deref (l : loc) : M Config :=
  fun s => match heap s !! l with
           | Some c => (Ok c, s)
           | None => (Exn TypeError, s)
           end.

Definition write_heap (l : loc) (c : Config) : M unit :=
  fun s => (Ok tt, mkSt (<[l := c]> (heap s)) (core s)).

(** ** [nerwhal.backends.load] (backends/__init__.py) *)

(** Returns the module and the class name of the backend class. *)
Definition load (backend : string) : Res (string * string) :=
  if String.eqb backend "spacy" then Ok (".spacy_backend", "SpacyBackend")
  else if String.eqb backend "re" then Ok (".re_backend", "ReBackend")
  else Exn (ValueError ("Unknow backend type " +:+ backend)).

(** ** [Core] methods (core.py) *)

Definition EXAMPLE_RECOGNIZERS_PATH : string := "nerwhal/example_recognizers".

(** [str.endswith]. *)
Definition ends_with (s suffix : string) : bool :=
  let n := String.length s in
  let m := String.length suffix in
  (m <=? n)%nat && String.eqb (String.substring (n - m) m s) suffix.

(** [os.path.join(EXAMPLE_RECOGNIZERS_PATH, file)]. *)
Definition example_path (file : string) : string :=
  EXAMPLE_RECOGNIZERS_PATH +:+ "/" +:+ file.

Section CoreMethods.
Context (E : Env).

(** The loop body of [_add_examples_to_config_recognizer_paths]:
    [self.config.recognizer_paths.append(example)] mutates the object
    [self.config] refers to. *)
Fixpoint add_examples_loop (l : loc) (files : list string) : M unit :=
  match files with
  | [] => mret tt
  | file :: files' =>
      (if ends_with file "_recognizer.py" then
         let example := example_path file in
         c ← deref l;
         if py_in example (recognizer_paths c) then mret tt
         else write_heap l (set_recognizer_paths c (recognizer_paths c ++ [example]))
       else mret tt) ;;
      add_examples_loop l files'
  end.

(** [Core._add_examples_to_config_recognizer_paths]. *)
Definition add_examples_to_config_recognizer_paths : M unit :=
  o ← gets (fun s => config (core s));
  match o with
  | None => raise (AttributeError "recognizer_paths")
  | Some l =>
      files ← lift (listdir_examples E);
      add_examples_loop l files
  end.

(** [if recognizer_cls.BACKEND not in self.backends.keys(): ...] *)
Definition ensure_backend (cfg : Config) (rc : RecognizerCls) : M unit :=
  bs ← gets (fun s => backends (core s));
  match dict_get (BACKEND rc) bs with
  | Some _ => mret tt
  | None =>
      backend_cls ← lift (load (BACKEND rc));
      backend_inst ←
        lift (if String.eqb (BACKEND rc) "entity-ruler"
              then construct_backend_lang E backend_cls (language cfg)
              else construct_backend E backend_cls);
      modify_core (fun c => set_backends (dict_set (BACKEND rc) backend_inst (backends c)) c)
  end.

(** [self.backends[recognizer_cls.BACKEND].register_recognizer(recognizer_cls)] *)
Definition register_in_backend (rc : RecognizerCls) : M unit :=
  bs ← gets (fun s => backends (core s));
  match dict_get (BACKEND rc) bs with
  | None => raise (KeyError (BACKEND rc))
  | Some b =>
      b' ← lift (register_recognizer E b rc);
      modify_core (fun c => set_backends (dict_set (BACKEND rc) b' (backends c)) c)
  end.

(** [self.recognizer_lookup[recognizer_cls.__name__] = recognizer_cls] *)
Definition add_to_lookup (rc : RecognizerCls) : M unit :=
  lk ← gets (fun s => recognizer_lookup (core s));
  match lk with
  | None => raise TypeError
  | Some m => modify_core (set_lookup (Some (<[cls_name rc := rc]> m)))
  end.

(** [for recognizer_path in self.config.recognizer_paths: ...] *)
Fixpoint register_paths (cfg : Config) (paths : list string) : M unit :=
  match paths with
  | [] => mret tt
  | recognizer_path :: paths' =>
      if negb (isfile E recognizer_path) then
        raise (ValueError ("Configured recognizer " +:+ recognizer_path +:+ " is not a file"))
      else
        recognizer_cls ← lift (load_class E recognizer_path);
        add_to_lookup recognizer_cls ;;
        ensure_backend cfg recognizer_cls ;;
        register_in_backend recognizer_cls ;;
        register_paths cfg paths'
  end.

(** [config == self.config]; [self.config] may be [None]. *)
Definition equals_current (c : Config) : M bool :=
  o ← gets (fun s => config (core s));
  match o with
  | None => mret false
  | Some l' => c' ← deref l'; mret (config_eqb c c')
  end.

(** The rebuild of [Core.update_config] after [self.config = config]. *)
Definition rebuild_body (l : loc) (c : Config) : M unit :=
  tk ← lift (make_tokenizer E (language c));
  modify_core (set_tokenizer (Some tk)) ;;
  modify_core (set_backends []) ;;
  (if use_statistical_ner c then
     b ← lift (make_stanza E (language c));
     modify_core (fun k => set_backends (dict_set "stanza" b (backends k)) k)
   else mret tt) ;;
  (if load_example_recognizers c then add_examples_to_config_recognizer_paths
   else mret tt) ;;
  modify_core (set_lookup (Some ∅)) ;;
  c' ← deref l;
  register_paths c' (recognizer_paths c').

Definition rebuild (l : loc) (c : Config) : M unit :=
  modify_core (set_config (Some l)) ;;
  rebuild_body l c.

(** [Core.update_config(config)], [config] being the object at [l]. *)
Definition update_config (l : loc) : M unit :=
  c ← deref l;
  same ← equals_current c;
  if (same : bool) then mret tt else rebuild l c.
End CoreMethods.

(** ** [Core._run_in_parallel] and [recognize] *)

(** How the child process started for one backend ends.  The child runs
    [target(backend.run, text, send_end)], i.e. [send_end.send(backend.run(text))].
    The parent reads no pipe before it has joined every child, so a child
    whose pickled result does not fit in the pipe buffer stays blocked in
    [send]. *)
Inductive ChildEnd :=
| Sent (ents : list NamedEntity)   (* result written to the pipe; child exits *)
| Died (e : Exc)                   (* [backend.run] raised; nothing is sent *)
| BlockedInSend                    (* [send] waits for a reader *)
| RunsForever.                     (* [backend.run] does not return *)

(** A Python value held in the result dict of [recognize]. *)
Inductive PyVal :=
| VTokens (ts : list Token)
| VEnts (es : list NamedEntity).

Section Recognition.
Context (E : Env).

Definition child_end (backend : Backend) (txt : string) : ChildEnd :=
  match backend_run E backend txt with
  | Ok ents => if (pickled_size E ents <=? pipe_capacity E)%nat then Sent ents else BlockedInSend
  | Exn e => Died e
  | Hang => RunsForever
  end.

Definition terminates (c : ChildEnd) : bool :=
  match c with Sent _ | Died _ => true | _ => false end.

(** Child [i] finishing: what it wrote is now in pipe [i]. *)
Definition deliver (children : list ChildEnd)
    (pipes : list (option (list NamedEntity))) (i : nat) : list (option (list NamedEntity)) :=
  match children !! i with
  | Some (Sent ents) => <[i := Some ents]> pipes
  | _ => pipes
  end.

(** [conn.recv()] on pipes [i], [i+1], ... of [n]: an empty pipe whose
    writer died raises [EOFError] once every write end is closed, and
    blocks while the parent still holds one. *)
Fixpoint recv_all (n i : nat) (pipes : list (option (list NamedEntity)))
    : Res (list (list NamedEntity)) :=
  match pipes with
  | [] => Ok []
  | p :: pipes' =>
      r ← (match p with
           | Some ents => Ok ents
           | None => if parent_write_end_closed E i n then Exn EOFError else Hang
           end);
      rs ← recv_all n (S i) pipes';
      mret (r :: rs)
  end.

(** [Core._run_in_parallel(backends, text)]: one process and one pipe per
    backend, in order; the processes finish in the order [sched]; then
    [for proc in jobs: proc.join()]; then
    [results = [conn.recv() for conn in pipe_conns]]. *)
Definition run_in_parallel (sched : list nat) (bs : list Backend) (txt : string)
    : Res (list (list NamedEntity)) :=
  let n := length bs in
  let children := map (fun b => child_end b txt) bs in
  let pipes := foldl (deliver children) (replicate n None) sched in
  if forallb terminates children then recv_all n 0 pipes else Hang.

(** [Core.run_recognition(text)]: the backends in [self.backends.values()]
    order. *)
Definition run_recognition (sched : list nat) (txt : string) : M (list (list NamedEntity)) :=
  bs ← gets (fun s => backends (core s));
  lift (run_in_parallel sched (map snd bs) txt).

(** [if context_words: for ent in ents: ...] *)
Definition context_boost (txt : string) (ents : list NamedEntity) : M (list NamedEntity) :=
  match ents with
  | [] => mret []
  | _ :: _ =>
      otk ← gets (fun s => tokenizer (core s));
      olk ← gets (fun s => recognizer_lookup (core s));
      ocfg ← gets (fun s => config (core s));
      match otk, olk, ocfg with
      | None, _, _ => raise (AttributeError "get_sentence_for_token")
      | _, None, _ => raise TypeError
      | _, _, None => raise (AttributeError "context_word_confidence_boost_factor")
      | Some tk, Some lk, Some l =>
          cfg ← deref l;
          lift (boost_context_words (sentence_for_token E tk txt) lk
                  (context_word_confidence_boost_factor cfg) ents)
      end
  end.

(** [tokens = []; if compute_tokens or context_words: ...] *)
Definition tokenize_step (txt : string) (ents : list NamedEntity) (needed : bool)
    : M (list NamedEntity * list Token) :=
  if needed then
    otk ← gets (fun s => tokenizer (core s));
    match otk with
    | None => raise (AttributeError "tokenize")
    | Some tk =>
        let tokens := tokenize E tk txt in
        (* add_token_indices(ents, tokens) *)
        mret (map (set_token_indices E tokens) ents, tokens)
    end
  else mret (ents, []).

(** [recognize(text, config, combination_strategy, context_words,
    compute_tokens)] on the module-level [core]; [sched] is the order in
    which the backend processes finish. *)
Definition recognize (sched : list nat) (txt : string) (l : loc) (combination_strategy : string)
    (context_words compute_tokens : bool) : M (list (string * PyVal)) :=
  update_config E l ;;
  results ← run_recognition sched txt;
  ents ← (if bool_decide (length results = 0) then mret []
          else lift (combine E results combination_strategy));
  et ← tokenize_step txt ents (compute_tokens || context_words);
  let result : list (string * PyVal) :=
    if compute_tokens then dict_set "tokens" (VTokens et.2) [] else [] in
  ents' ← (if context_words then context_boost txt et.1 else mret et.1);
  mret (dict_set "ents" (VEnts ents') result).
End Recognition.

(** ** The backends of src/nerwhal/backends *)

(** [EntityRulerBackend] (entity_ruler_backend.py) keeps a spaCy v2 [Language]
    whose pipeline is a list of named components. *)
Module EntityRulerBackend.
Inductive Component :=
| EntityRuler (rules : list (string * string))    (* (label, pattern) *)
| LabelSetter (score : Q) (name : string)         (* set_entity_extension_attributes *)
| OtherComponent (kind : string).                 (* tokenizer, tagger, lemmatizer, ... *)

Record Language := mkLanguage { pipeline : list (string * Component) }.

Definition pipe_names (nlp : Language) : list string := map fst (pipeline nlp).

Fixpoint insert_after {A} (key : string) (x : string * A) (l : list (string * A))
    : list (string * A) :=
  match l with
  | [] => []
  | y :: l' => if String.eqb y.1 key then y :: x :: l' else y :: insert_after key x l'
  end.

(** spaCy v2 [Language.add_pipe(component, name, after=...)]: a name already
    in the pipeline raises [ValueError] (E007); without [after] the pipe is
    appended; [after] must name a pipe (E001). *)
Definition add_pipe (nlp : Language) (component : Component) (name : string)
    (after : option string) : Res Language :=
  if py_in name (pipe_names nlp) then Exn (ValueError "E007")
  else match after with
       | None => Ok (mkLanguage (pipeline nlp ++ [(name, component)]))
       | Some a =>
           if py_in a (pipe_names nlp)
           then Ok (mkLanguage (insert_after a (name, component) (pipeline nlp)))
           else Exn (ValueError "E001")
       end.

(** [ruler.add_patterns(rules)] on the ruler object held by the pipe [name]. *)
Definition add_patterns (nlp : Language) (name : string) (rules : list (string * string))
    : Language :=
  mkLanguage (map (fun p => if String.eqb p.1 name then
                              match p.2 with
                              | EntityRuler rs => (p.1, EntityRuler (rs ++ rules))
                              | _ => p
                              end
                            else p) (pipeline nlp)).

(** [EntityRulerBackend.register_recognizer(recognizer_cls)]. *)
Definition register_recognizer (nlp : Language) (recognizer_cls : RecognizerCls)
    : Res Language :=
  let name := cls_name recognizer_cls in
  nlp1 ← add_pipe nlp (EntityRuler []) name None;
  let rules := map (fun pattern => (TAG recognizer_cls, pattern)) (patterns recognizer_cls) in
  let nlp2 := add_patterns nlp1 name rules in
  add_pipe nlp2 (LabelSetter (SCORE recognizer_cls) name) ("label_" +:+ name) (Some name).
End EntityRulerBackend.

(** [FlairNerBackend] (flair_ner_backend.py): the loaded tagger. *)
Module FlairNerBackend.
Record FlairNerBackend := mkFlairNerBackend { model_path : string }.

(** [FlairNerBackend.register_recognizer]: [raise NotImplementedError()]. *)
Definition register_recognizer (self : FlairNerBackend) (recognizer_cls : RecognizerCls)
    : Res FlairNerBackend :=
  Exn NotImplementedError.
End FlairNerBackend.

(** ** Statements *)

(** Some context word of [e]'s recognizer is the text of a token of the
    sentence of [e] outside [e]'s token range. *)
Definition context_word_in_sentence (sent : nat -> list Token)
    (lookup : gmap string RecognizerCls) (e : NamedEntity) : Prop :=
  exists cls ws w t,
    lookup !! recognizer e = Some cls /\ CONTEXT_WORDS cls = Some ws /\ In w ws /\
    In t (sent (start_tok e)) /\ (tok_i t < start_tok e \/ end_tok e <= tok_i t)%nat /\
    tok_text t = w.

(** [m] relates every state to the state it leaves, also when it raises. *)
Definition preserves {A} (R : St -> St -> Prop) (m : M A) : Prop :=
  forall s, R s (snd (m s)).

(** Every reference the core holds points to an object of the heap. *)
Definition wf_state (s : St) : Prop :=
  forall l, config (core s) = Some l -> is_Some (heap s !! l).

(** The state relation for the retained config: [self.config] is unchanged
    and the object at [l] still exists. *)
Definition retains (l : loc) (s s' : St) : Prop :=
  config (core s') = config (core s) /\ (is_Some (heap s !! l) -> is_Some (heap s' !! l)).

(** A path [_add_examples_to_config_recognizer_paths] may append. *)
Definition is_example_path (p : string) : Prop :=
  exists file, p = example_path file /\ ends_with file "_recognizer.py" = true.

(** [c'] is [c] with bundled example paths appended to its
    [recognizer_paths]. *)
Definition grows (c c' : Config) : Prop :=
  language c' = language c /\
  use_statistical_ner c' = use_statistical_ner c /\
  load_example_recognizers c' = load_example_recognizers c /\
  context_word_confidence_boost_factor c' = context_word_confidence_boost_factor c /\
  exists suffix, recognizer_paths c' = recognizer_paths c ++ suffix /\
                 Forall is_example_path suffix.

(** Only the object at [l] changes, and it only [grows]. *)
Definition heap_frame (l : loc) (s s' : St) : Prop :=
  (forall l', l' <> l -> heap s' !! l' = heap s !! l') /\
  (forall c, heap s !! l = Some c -> exists c', heap s' !! l = Some c' /\ grows c c').

(** [heap_frame], as long as [self.config] is the object at [l]. *)
Definition config_frame (l : loc) (s s' : St) : Prop :=
  config (core s) = Some l -> config (core s') = Some l /\ heap_frame l s s'.

Definition heap_same (s s' : St) : Prop := heap s' = heap s.

(** ** A concrete environment *)

(** Whitespace-separated words of [s] with their start offsets. *)
Fixpoint words_aux (s : string) (pos start : nat) (cur : string) : list (nat * string) :=
  match s with
  | EmptyString => if String.eqb cur "" then [] else [(start, cur)]
  | String c s' =>
      if Ascii.eqb c " "%char then
        (if String.eqb cur "" then [] else [(start, cur)]) ++ words_aux s' (S pos) (S pos) ""
      else words_aux s' (S pos) start (cur +:+ String c EmptyString)
  end.

Definition words (s : string) : list (nat * string) := words_aux s 0 0 "".

(** The tokens of a text: one per word. *)
Definition text_tokens (txt : string) : list Token :=
  imap (fun i w => mkToken i w.2) (words txt).

Fixpoint has_char (c : Ascii.ascii) (w : string) : bool :=
  match w with
  | EmptyString => false
  | String c' w' => Ascii.eqb c c' || has_char c w'
  end.

Definition starts_with_char (c : Ascii.ascii) (w : string) : bool :=
  match w with
  | String c' _ => Ascii.eqb c c'
  | EmptyString => false
  end.

(** One entity per word satisfying [pred], with its character and token
    offsets. *)
Definition word_matches (pred : string -> bool) (tg rname : string) (sc : Q) (txt : string)
    : list NamedEntity :=
  omap (fun iw : nat * (nat * string) =>
          let '(i, (start, w)) := iw in
          if pred w then Some (mkEntity start (start + String.length w) tg w sc rname i (S i))
          else None)
       (imap pair (words txt)).

Fixpoint repeat_text (n : nat) (s : string) : string :=
  match n with
  | O => ""
  | S n' => s +:+ repeat_text n' s
  end.

(** Recognizer classes of the fixture: the bundled e-mail recognizer, a
    user recognizer without a [CONTEXT_WORDS] attribute, a user recognizer
    for the spaCy backend, and user recognizers declaring the backends
    ["foo"] and ["entity-ruler"]. *)
Definition email_cls (cw : option (list string)) : RecognizerCls :=
  mkRecognizerCls "EmailRecognizer" "re" "EMAIL" (19#20) cw [].
Definition phone_cls : RecognizerCls :=
  mkRecognizerCls "PhoneRecognizer" "re" "PHONE" (4#5) None [].
Definition name_cls : RecognizerCls :=
  mkRecognizerCls "NameRecognizer" "spacy" "PER" (7#10) (Some []) [].
Definition foo_cls : RecognizerCls :=
  mkRecognizerCls "FooRecognizer" "foo" "FOO" (1#2) (Some []) [].
Definition ruler_cls : RecognizerCls :=
  mkRecognizerCls "RulerRecognizer" "entity-ruler" "RULE" (1#2) (Some []) ["ACME"].

Definition fixture_files : list (string * RecognizerCls) :=
  [(example_path "email_recognizer.py", email_cls (Some []));
   ("recognizers/phone_recognizer.py", phone_cls);
   ("recognizers/name_recognizer.py", name_cls);
   ("recognizers/foo_recognizer.py", foo_cls);
   ("recognizers/ruler_recognizer.py", ruler_cls)].

(** [ReBackend.run]: the matches of the registered recognizers. *)
Definition re_run (registered : list string) (txt : string) : list NamedEntity :=
  concat (map (fun r =>
    if String.eqb r "EmailRecognizer" then word_matches (has_char "@"%char) "EMAIL" r (19#20) txt
    else if String.eqb r "PhoneRecognizer" then word_matches (starts_with_char "+"%char) "PHONE" r (4#5) txt
    else []) registered).

Definition fixture_run (b : Backend) (txt : string) : Res (list NamedEntity) :=
  if String.eqb (backend_class b) "ReBackend" then Ok (re_run (backend_recognizers b) txt)
  else if String.eqb (backend_class b) "StanzaNerBackend"
  then Ok (word_matches (String.eqb "Ada") "PER" "StanzaNerBackend" (9#10) txt)
  else if String.eqb (backend_class b) "SpacyBackend" then Exn OSError   (* model missing *)
  else Ok [].

(** The pickled size of an entity list is taken as 50 bytes per entity, an
    underestimate; the Linux pipe buffer holds 64 KiB.  In CPython the
    parent keeps the write end of the last pipe created ([send_end] of the
    last loop iteration) open. *)
Definition E0 : Env := {|
  isfile p := bool_decide (is_Some (dict_get p fixture_files));
  listdir_examples := Ok ["__init__.py"; "email_recognizer.py"];
  load_class p := match dict_get p fixture_files with Some rc => Ok rc | None => Exn OSError end;
  make_tokenizer lang := if String.eqb lang "xx" then Exn OSError else Ok (mkTokenizer lang);
  make_stanza lang := Ok (mkBackend "StanzaNerBackend" []);
  construct_backend mc := Ok (mkBackend mc.2 []);
  construct_backend_lang mc lang := Ok (mkBackend mc.2 []);
  register_recognizer b rc := Ok (mkBackend (backend_class b) (backend_recognizers b ++ [cls_name rc]));
  backend_run := fixture_run;
  pickled_size ents := 50 * length ents;
  pipe_capacity := 64 * 1024;
  parent_write_end_closed i n := negb (S i =? n);
  combine lists strategy := Ok (concat lists);
  tokenize tk txt := text_tokens txt;
  sentence_for_token tk txt i := text_tokens txt;
  set_token_indices toks e := e
|}%nat.

Definition cfg_of (paths : list string) : Config := mkConfig "en" paths false false (6#5).

(** A caller holding one config object at location 1. *)
Definition state_with (c : Config) : St := mkSt {[1%positive := c]} Core_init.

Definition cfg_missing : Config := cfg_of ["recognizers/missing_recognizer.py"].
Definition cfg_examples : Config := mkConfig "en" [] false true (6#5).
Definition cfg_phone : Config := cfg_of ["recognizers/phone_recognizer.py"].
Definition cfg_name : Config := cfg_of ["recognizers/name_recognizer.py"].
Definition cfg_foo : Config := mkConfig "en" ["recognizers/foo_recognizer.py"] true false (6#5).
Definition cfg_ruler : Config := cfg_of ["recognizers/ruler_recognizer.py"].
Definition cfg_xx : Config := mkConfig "xx" [] false false (6#5).

(** A core whose [self.config] is the caller's config with the bundled
    examples enabled. *)
Definition examples_configured : St :=
  mkSt {[1%positive := cfg_examples]} (set_config (Some 1%positive) Core_init).

(** The text of 1500 e-mail addresses. *)
Definition many_mails : string := repeat_text 1500 "a@b.de ".


Definition mail_text : string := "write mail to a@b.de".

Definition mail_ent : NamedEntity :=
  mkEntity 14 20 "EMAIL" "a@b.de" (19#20) "EmailRecognizer" 3 4.

Definition mail_lookup : gmap string RecognizerCls :=
  {["EmailRecognizer" := email_cls (Some ["mail"])]}.

Definition re_email_backend : Backend := mkBackend "ReBackend" ["EmailRecognizer"].

(** A spaCy v2 pipeline with a tagger and a parser. *)
Definition tagger_parser : EntityRulerBackend.Language :=
  EntityRulerBackend.mkLanguage
    [("tagger", EntityRulerBackend.OtherComponent "tagger");
     ("parser", EntityRulerBackend.OtherComponent "parser")].

(** The keys of [self.backends]. *)
Definition backend_keys (s : St) : list string := map fst (backends (core s)).

(** What the core holds once it is configured with the object at
    [self.config]: a tokenizer; for every recognizer path of that config, the
    path is a file, its class is loaded, is in [recognizer_lookup] under its
    [__name__], and its [BACKEND] is a key of [self.backends]; the keys of
    [self.backends] are among ["stanza"], ["spacy"], ["re"], and ["stanza"] is
    one of them exactly when [use_statistical_ner] is set. *)
Definition configured (E : Env) (s : St) : Prop :=
  forall l c, config (core s) = Some l -> heap s !! l = Some c ->
    is_Some (tokenizer (core s)) /\
    (forall p, In p (recognizer_paths c) ->
       isfile E p = true /\
       exists rc, load_class E p = Ok rc /\
         (exists lk, recognizer_lookup (core s) = Some lk /\ is_Some (lk !! cls_name rc)) /\
         In (BACKEND rc) (backend_keys s)) /\
    (forall k, In k (backend_keys s) -> k = "stanza" \/ k = "spacy" \/ k = "re") /\
    (In "stanza" (backend_keys s) <-> use_statistical_ner c = true).

(** ** The class name computed by [Core._load_class]

    [module_name = os.path.splitext(os.path.basename(recognizer_path))[0]]
    and [class_name = "".join(word.title() for word in module_name.split("_"))].
    A Python [str] is a sequence of code points; indices and slices count
    code points. *)

Definition ustr := list Z.

(** The code points of an ASCII literal. *)
Definition ascii_codes (s : string) : ustr :=
  map (fun c => Z.of_nat (nat_of_ascii c)) (String.list_ascii_of_string s).

(** [s.rfind(ch)]: the index of the last [ch] in [s], [-1] if none. *)
Fixpoint rfind_from (ch : Z) (s : ustr) (i best : Z) : Z :=
  match s with
  | [] => best
  | c :: s' => rfind_from ch s' (i + 1) (if Z.eqb c ch then i else best)
  end.

Definition rfind (ch : Z) (s : ustr) : Z := rfind_from ch s 0 (-1).

(** [posixpath.basename]: [p[p.rfind("/") + 1:]] ("/" is code point 47). *)
Definition basename (p : ustr) : ustr := drop (Z.to_nat (rfind 47 p + 1)) p.

(** The [while] loop of [genericpath._splitext]: is one of the [n]
    characters from index [i] on not a dot ("." is code point 46)? *)
Fixpoint non_dot_between (p : ustr) (i n : nat) : bool :=
  match n with
  | 0 => false
  | S n' => if negb (bool_decide (p !! i = Some 46%Z)) then true
            else non_dot_between p (S i) n'
  end.

(** [os.path.splitext(p)[0]] ([posixpath]: [sep = "/"], no [altsep]). *)
Definition splitext_root (p : ustr) : ustr :=
  let sepIndex := rfind 47 p in
  let dotIndex := rfind 46 p in
  if Z.ltb sepIndex dotIndex then
    if non_dot_between p (Z.to_nat (sepIndex + 1)) (Z.to_nat (dotIndex - (sepIndex + 1)))
    then take (Z.to_nat dotIndex) p
    else p
  else p.

(** [s.split(sep)] for a one-character separator. *)
Fixpoint py_split_aux (sep : Z) (s cur : ustr) : list ustr :=
  match s with
  | [] => [cur]
  | c :: s' => if Z.eqb c sep then cur :: py_split_aux sep s' []
               else py_split_aux sep s' (cur ++ [c])
  end.

Definition py_split (sep : Z) (s : ustr) : list ustr := py_split_aux sep s [].

Section Title.
(** CPython's Unicode character database: [_PyUnicode_ToTitleFull(c)]
    (one to three code points), [lower_ucs4(data, i, c)] (the full
    lower-case mapping of the code point [c] at index [i] of [data]; the
    string is needed for the final form of capital sigma) and
    [_PyUnicode_IsCased(c)]. *)
Variable to_title_full : Z -> ustr.
Variable lower_ucs4 : ustr -> nat -> Z -> ustr.
Variable is_cased : Z -> bool.

(** [str.title] (CPython's [do_title]): the character at index [i] is
    lowered when the previous character is cased, title-cased otherwise. *)
Fixpoint title_aux (data : ustr) (i : nat) (previous_is_cased : bool) (rest : ustr) : ustr :=
  match rest with
  | [] => []
  | c :: rest' =>
      (if previous_is_cased then lower_ucs4 data i c else to_title_full c) ++
      title_aux data (S i) (is_cased c) rest'
  end.

Definition title (s : ustr) : ustr := title_aux s 0 false s.

Definition module_name (recognizer_path : ustr) : ustr :=
  splitext_root (basename recognizer_path).

Definition class_name (recognizer_path : ustr) : ustr :=
  concat (map title (py_split 95 (module_name recognizer_path))).
End Title.

(** The database on ASCII code points: letters are cased, [a-z] title-case
    to [A-Z] and [A-Z] lower-case to [a-z]; every other ASCII character
    maps to itself. *)
Definition ascii_title_full (c : Z) : ustr :=
  [if (97 <=? c)%Z && (c <=? 122)%Z then (c - 32)%Z else c].
Definition ascii_lower (c : Z) : ustr :=
  [if (65 <=? c)%Z && (c <=? 90)%Z then (c + 32)%Z else c].
Definition ascii_is_cased (c : Z) : bool :=
  ((65 <=? c)%Z && (c <=? 90)%Z) || ((97 <=? c)%Z && (c <=? 122)%Z).

Definition agrees_on_ascii (to_title_full : Z -> ustr) (lower_ucs4 : ustr -> nat -> Z -> ustr)
    (is_cased : Z -> bool) : Prop :=
  forall c, (0 <= c < 128)%Z ->
    to_title_full c = ascii_title_full c /\
    (forall data i, lower_ucs4 data i c = ascii_lower c) /\
    is_cased c = ascii_is_cased c.

(** A part of the database: ASCII, and "ä" (228) / "Ä" (196). *)
Definition de_title_full (c : Z) : ustr := if Z.eqb c 228 then [196%Z] else ascii_title_full c.
Definition de_lower_ucs4 (data : ustr) (i : nat) (c : Z) : ustr :=
  if Z.eqb c 196 then [228%Z] else ascii_lower c.
Definition de_is_cased (c : Z) : bool := Z.eqb c 196 || Z.eqb c 228 || ascii_is_cased c.

(** * Properties *)

Lemma py_min_le_1 (x : Q) : (py_min x 1 <= 1)%Q.
Proof.
  unfold py_min. destruct (Qle_bool x 1) eqn:H.
  - apply Qle_bool_iff. exact H.
  - apply Qle_refl.
Qed.

Lemma boost_entity_spec (sent : nat -> list Token) (lookup : gmap string RecognizerCls)
    (factor : Q) (e e' : NamedEntity) :
  boost_entity sent lookup factor e = Ok e' ->
  (context_word_in_sentence sent lookup e ->
     e' = set_score e (py_min (score e * factor) 1) /\ (score e' <= 1)%Q) /\
  (~ context_word_in_sentence sent lookup e -> e' = e).
Proof.
  unfold boost_entity.
  destruct (lookup !! recognizer e) as [cls|] eqn:Hl; [|discriminate].
  destruct (CONTEXT_WORDS cls) as [ws|] eqn:Hw; [|discriminate].
  destruct (existsb _ ws) eqn:Hex; intros Heq; injection Heq as <-.
  - split.
    + intros _. split; [reflexivity | apply py_min_le_1].
    + intros Hn. exfalso. apply Hn.
      apply existsb_exists in Hex as [w [Hwin Hpy]].
      unfold py_in in Hpy. apply existsb_exists in Hpy as [x [Hx Heqb]].
      apply String.eqb_eq in Heqb. subst x.
      apply in_map_iff in Hx as [t [Ht Hin]].
      apply filter_In in Hin as [Hin Hcond].
      exists cls, ws, w, t. repeat split; auto.
      apply orb_true_iff in Hcond as [Hc|Hc]; apply bool_decide_eq_true in Hc; auto.
  - split.
    + intros (cls' & ws' & w & t & Hl' & Hw' & Hin & Ht & Hrange & Htxt).
      rewrite Hl in Hl'. injection Hl' as <-. rewrite Hw in Hw'. injection Hw' as <-.
      exfalso. assert (Htrue : existsb (fun word => py_in word
        (map tok_text (List.filter (fun t => bool_decide (tok_i t < start_tok e)
                                     || bool_decide (end_tok e <= tok_i t))
                      (sent (start_tok e))))) ws = true).
      { apply existsb_exists. exists w. split; [exact Hin|].
        unfold py_in. apply existsb_exists. exists (tok_text t). split.
        - apply in_map. apply filter_In. split; [exact Ht|].
          apply orb_true_iff. destruct Hrange as [Hr|Hr]; [left|right];
            apply bool_decide_eq_true; exact Hr.
        - apply String.eqb_eq. symmetry. exact Htxt. }
      rewrite Htrue in Hex. discriminate.
    + intros _. reflexivity.
Qed.

(** C1: with context words on, every entity comes out of the loop of
    [recognize] either unchanged (no context word of its recognizer occurs in
    its sentence outside its token range) or with its score set once to
    [min(score * context_word_confidence_boost_factor, 1.0)], which is at most
    1.0. *)
Theorem boost_context_words_spec (sent : nat -> list Token)
    (lookup : gmap string RecognizerCls) (factor : Q) (ents ents' : list NamedEntity) :
  boost_context_words sent lookup factor ents = Ok ents' ->
  Forall2 (fun e e' =>
      (context_word_in_sentence sent lookup e ->
         e' = set_score e (py_min (score e * factor) 1) /\ (score e' <= 1)%Q) /\
      (~ context_word_in_sentence sent lookup e -> e' = e)) ents ents'.
Proof.
  revert ents'. induction ents as [|e rest IH]; intros ents' H; simpl in H.
  - injection H as <-. constructor.
  - destruct (boost_entity sent lookup factor e) as [e1| |] eqn:He; try discriminate.
    cbn in H.
    destruct (boost_context_words sent lookup factor rest) as [r1| |] eqn:Hr; try discriminate.
    cbn in H. injection H as <-.
    constructor; [apply boost_entity_spec; exact He | apply IH; reflexivity].
Qed.

(** ** Frame lemmas for the [Core] monad *)

Section Frame.
Context (R : St -> St -> Prop) `{!Reflexive R} `{!Transitive R}.
Hypothesis R_modify :
  forall f, (forall k, config (f k) = config k) -> forall s, R s (mkSt (heap s) (f (core s))).

Lemma preserves_ret {A} (a : A) : preserves R (mret a).
Proof. intros s. simpl. reflexivity. Qed.

Lemma preserves_bind {A B} (m : M A) (f : A -> M B) :
  preserves R m -> (forall a, preserves R (f a)) -> preserves R (m ≫= f).
Proof.
  intros Hm Hf s. specialize (Hm s). unfold mbind, M_bind.
  destruct (m s) as [[a|e|] s'] eqn:Hs; simpl in *; try exact Hm.
  transitivity s'; [exact Hm | apply Hf].
Qed.

Lemma preserves_raise {A} (e : Exc) : preserves R (@raise A e).
Proof. intros s. simpl. reflexivity. Qed.

Lemma preserves_lift {A} (r : Res A) : preserves R (lift r).
Proof. intros s. simpl. reflexivity. Qed.

Lemma preserves_gets {A} (f : St -> A) : preserves R (gets f).
Proof. intros s. simpl. reflexivity. Qed.

Lemma preserves_deref (l : loc) : preserves R (deref l).
Proof. intros s. unfold deref. destruct (heap s !! l); simpl; reflexivity. Qed.

Lemma preserves_modify (f : Core -> Core) :
  (forall k, config (f k) = config k) -> preserves R (modify_core f).
Proof. intros Hf s. apply R_modify. exact Hf. Qed.
End Frame.

Ltac frame :=
  repeat match goal with
  | |- preserves _ (mbind _ _) => apply preserves_bind; [..| |intro]
  | |- preserves _ (mret _) => apply preserves_ret
  | |- preserves _ (raise _) => apply preserves_raise
  | |- preserves _ (lift _) => apply preserves_lift
  | |- preserves _ (gets _) => apply preserves_gets
  | |- preserves _ (deref _) => apply preserves_deref
  | |- preserves _ (modify_core _) => apply preserves_modify; [..|intro; reflexivity]
  | |- preserves _ (match ?x with _ => _ end) => destruct x
  | |- Reflexive _ => typeclasses eauto
  | |- Transitive _ => typeclasses eauto
  end.

Section FrameCore.
Context (R : St -> St -> Prop) `{!Reflexive R} `{!Transitive R}.
Hypothesis R_modify :
  forall f, (forall k, config (f k) = config k) -> forall s, R s (mkSt (heap s) (f (core s))).
Context (E : Env).

Lemma preserves_register_paths (cfg : Config) (ps : list string) :
  preserves R (register_paths E cfg ps).
Proof.
  induction ps as [|p ps IH]; simpl.
  - apply preserves_ret; assumption.
  - destruct (negb (isfile E p)).
    + apply preserves_raise; assumption.
    + unfold ensure_backend, register_in_backend, add_to_lookup. frame; auto.
Qed.

Lemma preserves_equals_current (c : Config) : preserves R (equals_current c).
Proof. unfold equals_current. frame; auto. Qed.
End FrameCore.

Global Instance retains_refl l : Reflexive (retains l).
Proof. intros s. split; auto. Qed.

Global Instance retains_trans l : Transitive (retains l).
Proof.
  intros s1 s2 s3 [H1 H2] [H3 H4]. split; [congruence | auto].
Qed.

Lemma retains_modify l :
  forall f, (forall k, config (f k) = config k) -> forall s, retains l s (mkSt (heap s) (f (core s))).
Proof. intros f Hf s. split; simpl; auto. Qed.

Lemma retains_write l l' c : preserves (retains l) (write_heap l' c).
Proof.
  intros s. split; simpl; [reflexivity|].
  intros Hs. destruct (decide (l' = l)) as [->|Hne].
  - rewrite lookup_insert_eq. eauto.
  - rewrite lookup_insert_ne by exact Hne. exact Hs.
Qed.

Lemma retains_add_examples_loop l l0 (files : list string) :
  preserves (retains l) (add_examples_loop l0 files).
Proof.
  pose proof (retains_modify l) as Hmod.
  induction files as [|f fs IH]; simpl; frame; auto.
  apply retains_write.
Qed.

Lemma retains_rebuild_body E l l0 c : preserves (retains l) (rebuild_body E l0 c).
Proof.
  unfold rebuild_body, add_examples_to_config_recognizer_paths.
  pose proof (retains_modify l) as Hmod.
  frame; try apply preserves_register_paths; try apply retains_add_examples_loop; auto.
  all: typeclasses eauto.
Qed.

Lemma config_eqb_refl (c : Config) : config_eqb c c = true.
Proof.
  unfold config_eqb. repeat rewrite andb_true_iff. repeat split.
  - apply String.eqb_refl.
  - apply bool_decide_eq_true. reflexivity.
  - apply Bool.eqb_reflx.
  - apply Bool.eqb_reflx.
  - apply Qeq_bool_refl.
Qed.

(** [update_config] either finds the config equal to the current one and does
    nothing, or rebuilds. *)
Lemma update_config_cases (E : Env) (l : loc) (s : St) (c : Config) :
  heap s !! l = Some c -> wf_state s ->
  update_config E l s = (Ok tt, s) \/ update_config E l s = rebuild E l c s.
Proof.
  intros Hc Hwf. unfold update_config, deref, mbind, M_bind. rewrite Hc.
  unfold equals_current, gets, mbind, M_bind. simpl.
  destruct (config (core s)) as [l0|] eqn:Hl0; simpl.
  - destruct (Hwf l0 Hl0) as [c0 Hc0]. unfold deref. rewrite Hc0. simpl.
    destruct (config_eqb c c0); [left|right]; reflexivity.
  - right. reflexivity.
Qed.

Lemma rebuild_unfold (E : Env) (l : loc) (c : Config) (s : St) :
  rebuild E l c s = rebuild_body E l c (mkSt (heap s) (set_config (Some l) (core s))).
Proof. reflexivity. Qed.

(** C2: when [update_config] raises (for instance on a recognizer path that
    is not a file), [self.config] already refers to the failing config, and
    a second call with it returns normally without doing anything. *)
Theorem update_config_keeps_failed_config (E : Env) (l : loc) (s s' : St) (e : Exc) :
  is_Some (heap s !! l) -> wf_state s ->
  update_config E l s = (Exn e, s') ->
  config (core s') = Some l /\ update_config E l s' = (Ok tt, s').
Proof.
  intros [c Hc] Hwf Hup.
  destruct (update_config_cases E l s c Hc Hwf) as [H|H]; rewrite H in Hup;
    [discriminate|].
  rewrite rebuild_unfold in Hup.
  pose proof (retains_rebuild_body E l l c (mkSt (heap s) (set_config (Some l) (core s))))
    as [Hcfg Hsome].
  rewrite Hup in Hcfg, Hsome. simpl in Hcfg, Hsome.
  destruct (Hsome (ex_intro _ c Hc)) as [c' Hc'].
  split; [exact Hcfg|].
  unfold update_config, deref, mbind, M_bind. rewrite Hc'.
  unfold equals_current, gets, mbind, M_bind. simpl. rewrite Hcfg. simpl.
  unfold deref. rewrite Hc'. simpl. rewrite config_eqb_refl. reflexivity.
Qed.

Lemma grows_refl (c : Config) : grows c c.
Proof.
  repeat split. exists []. split; [symmetry; apply app_nil_r | constructor].
Qed.

Lemma grows_trans (c1 c2 c3 : Config) : grows c1 c2 -> grows c2 c3 -> grows c1 c3.
Proof.
  intros (H1 & H2 & H3 & H4 & sf1 & H5 & H6) (G1 & G2 & G3 & G4 & sf2 & G5 & G6).
  repeat split; try congruence.
  exists (sf1 ++ sf2). split.
  - rewrite G5, H5. symmetry. apply app_assoc.
  - apply Forall_app. split; assumption.
Qed.

Global Instance heap_frame_refl l : Reflexive (heap_frame l).
Proof. intros s. split; [auto | intros c Hc; exists c; split; [exact Hc | apply grows_refl]]. Qed.

Global Instance heap_frame_trans l : Transitive (heap_frame l).
Proof.
  intros s1 s2 s3 [A1 B1] [A2 B2]. split.
  - intros l' Hne. rewrite A2 by exact Hne. apply A1. exact Hne.
  - intros c Hc. destruct (B1 c Hc) as (c2 & Hc2 & G1).
    destruct (B2 c2 Hc2) as (c3 & Hc3 & G2).
    exists c3. split; [exact Hc3 | eapply grows_trans; eassumption].
Qed.

Global Instance config_frame_refl l : Reflexive (config_frame l).
Proof. intros s H. split; [exact H | reflexivity]. Qed.

Global Instance config_frame_trans l : Transitive (config_frame l).
Proof.
  intros s1 s2 s3 H12 H23 H1. destruct (H12 H1) as [H2 F12].
  destruct (H23 H2) as [H3 F23]. split; [exact H3 | etransitivity; eassumption].
Qed.

Lemma config_frame_modify l :
  forall f, (forall k, config (f k) = config k) ->
            forall s, config_frame l s (mkSt (heap s) (f (core s))).
Proof.
  intros f Hf s H. simpl. rewrite Hf. split; [exact H|]. split; simpl.
  - reflexivity.
  - intros c Hc. exists c. split; [exact Hc | apply grows_refl].
Qed.

Global Instance heap_same_refl : Reflexive heap_same.
Proof. intros s. reflexivity. Qed.

Global Instance heap_same_trans : Transitive heap_same.
Proof. intros s1 s2 s3 H1 H2. unfold heap_same in *. congruence. Qed.

Lemma heap_same_modify :
  forall f, (forall k, config (f k) = config k) -> forall s, heap_same s (mkSt (heap s) (f (core s))).
Proof. intros f _ s. reflexivity. Qed.

(** One iteration of [_add_examples_to_config_recognizer_paths]. *)
Lemma config_frame_append_example (l : loc) (example : string) :
  is_example_path example ->
  preserves (config_frame l)
    (c ← deref l;
     if py_in example (recognizer_paths c) then mret tt
     else write_heap l (set_recognizer_paths c (recognizer_paths c ++ [example]))).
Proof.
  intros Hex s Hcfg. unfold deref, mbind, M_bind.
  destruct (heap s !! l) as [c|] eqn:Hc; simpl; [|split; [exact Hcfg | reflexivity]].
  destruct (py_in example (recognizer_paths c)); simpl; [split; [exact Hcfg | reflexivity]|].
  split; [exact Hcfg|]. split.
  - intros l' Hne. simpl. apply lookup_insert_ne. congruence.
  - intros c0 Hc0. rewrite Hc in Hc0. injection Hc0 as <-. simpl.
    rewrite lookup_insert_eq. eexists; split; [reflexivity|].
    repeat split. exists [example]. split; [reflexivity | constructor; [exact Hex | constructor]].
Qed.

Lemma config_frame_add_examples_loop (l : loc) (files : list string) :
  preserves (config_frame l) (add_examples_loop l files).
Proof.
  pose proof (config_frame_modify l) as Hmod.
  induction files as [|f fs IH]; simpl.
  - apply preserves_ret; typeclasses eauto.
  - apply preserves_bind; [typeclasses eauto| |intros; exact IH].
    destruct (ends_with f "_recognizer.py") eqn:Hf.
    + apply config_frame_append_example. exists f. split; [reflexivity | exact Hf].
    + apply preserves_ret; typeclasses eauto.
Qed.

Lemma config_frame_add_examples (E : Env) (l : loc) :
  preserves (config_frame l) (add_examples_to_config_recognizer_paths E).
Proof.
  intros s Hcfg. unfold add_examples_to_config_recognizer_paths, gets, mbind, M_bind.
  simpl. rewrite Hcfg. unfold lift.
  destruct (listdir_examples E) as [files| |]; simpl; try (split; [exact Hcfg | reflexivity]).
  apply config_frame_add_examples_loop. exact Hcfg.
Qed.

Lemma config_frame_rebuild_body E l c : preserves (config_frame l) (rebuild_body E l c).
Proof.
  unfold rebuild_body.
  pose proof (config_frame_modify l) as Hmod.
  frame; try apply preserves_register_paths; try apply config_frame_add_examples; auto.
  all: typeclasses eauto.
Qed.

Lemma heap_same_rebuild_body E l c :
  load_example_recognizers c = false -> preserves heap_same (rebuild_body E l c).
Proof.
  intros Hflag. unfold rebuild_body. rewrite Hflag.
  pose proof heap_same_modify as Hmod.
  frame; try apply preserves_register_paths; auto.
  all: typeclasses eauto.
Qed.

(** C3 (amended): [update_config(config)] changes no object but [config]
    itself, and in [config] nothing but [recognizer_paths], to which it can
    only append bundled example paths ([nerwhal/example_recognizers/<f>] for
    files [f] ending in [_recognizer.py]); with [load_example_recognizers]
    false the caller's config is left as it was. *)
Theorem update_config_config_effect (E : Env) (l : loc) (s : St) (c : Config) :
  heap s !! l = Some c -> wf_state s ->
  (forall l', l' <> l -> heap (snd (update_config E l s)) !! l' = heap s !! l') /\
  (exists c', heap (snd (update_config E l s)) !! l = Some c' /\ grows c c') /\
  (load_example_recognizers c = false -> heap (snd (update_config E l s)) = heap s).
Proof.
  intros Hc Hwf.
  destruct (update_config_cases E l s c Hc Hwf) as [H|H]; rewrite H.
  - simpl. split; [auto|]. split; [|auto].
    exists c. split; [exact Hc | apply grows_refl].
  - rewrite rebuild_unfold.
    pose proof (config_frame_rebuild_body E l c
                  (mkSt (heap s) (set_config (Some l) (core s))) eq_refl) as [_ [Hne Hl]].
    split; [exact Hne|]. split; [apply Hl; exact Hc|].
    intros Hflag. apply (heap_same_rebuild_body E l c Hflag (mkSt (heap s) (set_config (Some l) (core s)))).
Qed.

(** ** Pipes of [_run_in_parallel] *)

Lemma lookup_map_list {A B} (f : A -> B) (l : list A) (i : nat) :
  map f l !! i = option_map f (l !! i).
Proof. revert i. induction l as [|x l IH]; intros [|i]; simpl; auto. Qed.

Lemma length_deliver (children : list ChildEnd) (pipes : list (option (list NamedEntity))) (i : nat) :
  length (deliver children pipes i) = length pipes.
Proof.
  unfold deliver. destruct (children !! i) as [[]|]; try reflexivity. apply length_insert.
Qed.

(** A pipe whose child sent nothing stays as it was. *)
Lemma deliver_unsent (children : list ChildEnd) (j : nat) :
  (forall ents, children !! j <> Some (Sent ents)) ->
  forall sched pipes, foldl (deliver children) pipes sched !! j = pipes !! j.
Proof.
  intros Hj sched. induction sched as [|x sched IH]; intros pipes; simpl; [reflexivity|].
  rewrite IH. unfold deliver.
  destruct (children !! x) as [[ents| | |]|] eqn:Hx; try reflexivity.
  destruct (decide (x = j)) as [->|Hne].
  - exfalso. exact (Hj ents Hx).
  - apply list_lookup_insert_ne. exact Hne.
Qed.

(** A pipe not in the schedule stays as it was. *)
Lemma deliver_unscheduled (children : list ChildEnd) (j : nat) :
  forall sched pipes, ~ In j sched -> foldl (deliver children) pipes sched !! j = pipes !! j.
Proof.
  intros sched. induction sched as [|x sched IH]; intros pipes Hj; simpl; [reflexivity|].
  rewrite IH by (intros H; apply Hj; right; exact H).
  unfold deliver. destruct (children !! x) as [[ents| | |]|]; try reflexivity.
  apply list_lookup_insert_ne. intros ->. apply Hj. left. reflexivity.
Qed.

(** A scheduled child that sent its result leaves it in its pipe. *)
Lemma deliver_scheduled (results : list (list NamedEntity)) (j : nat) :
  j < length results ->
  forall sched pipes, In j sched -> length pipes = length results ->
  foldl (deliver (map Sent results)) pipes sched !! j = Some (results !! j).
Proof.
  intros Hjlt sched. induction sched as [|x sched IH]; intros pipes Hj Hlen; [destruct Hj|]. simpl.
  destruct (in_dec Nat.eq_dec j sched) as [Hin|Hnin].
  - apply IH; [exact Hin|]. rewrite length_deliver. exact Hlen.
  - destruct Hj as [->|Hin]; [|contradiction].
    rewrite deliver_unscheduled by exact Hnin.
    unfold deliver. rewrite lookup_map_list.
    destruct (results !! j) as [r|] eqn:Hr; simpl.
    + apply list_lookup_insert_eq. apply lookup_lt_Some in Hr. lia.
    + apply lookup_ge_None in Hr. lia.
Qed.

Lemma length_foldl_deliver (children : list ChildEnd) :
  forall sched pipes, length (foldl (deliver children) pipes sched) = length pipes.
Proof.
  intros sched. induction sched as [|x sched IH]; intros pipes; simpl; [reflexivity|].
  rewrite IH. apply length_deliver.
Qed.

Lemma recv_all_sent (E : Env) (n k : nat) (results : list (list NamedEntity)) :
  recv_all E n k (map Some results) = Ok results.
Proof.
  revert k. induction results as [|r rs IH]; intros k; simpl; [reflexivity|].
  rewrite IH. reflexivity.
Qed.

(** [conn.recv()] cannot return every result while a pipe is empty. *)
Lemma recv_all_empty_pipe (E : Env) (n : nat) :
  forall pipes k j r, pipes !! j = Some None -> recv_all E n k pipes <> Ok r.
Proof.
  intros pipes. induction pipes as [|p pipes IH]; intros k j r Hj; [discriminate|].
  destruct j as [|j]; simpl in Hj |- *.
  - injection Hj as ->. destruct (parent_write_end_closed E k n); cbn; discriminate.
  - destruct p as [ents|]; cbn.
    + destruct (recv_all E n (S k) pipes) as [rs| |] eqn:Hrs; cbn; try discriminate.
      intros Heq. injection Heq as <-. exact (IH (S k) j rs Hj Hrs).
    + destruct (parent_write_end_closed E k n); cbn; discriminate.
Qed.

(** When every backend returns a result that fits in its pipe, the results
    come back in backend order, for every order in which the processes
    finish. *)
Lemma run_in_parallel_in_order (E : Env) (sched : list nat) (bs : list Backend) (txt : string)
    (results : list (list NamedEntity)) :
  Permutation sched (seq 0 (length bs)) ->
  Forall2 (fun b ents => backend_run E b txt = Ok ents /\
                         (pickled_size E ents <= pipe_capacity E)%nat) bs results ->
  run_in_parallel E sched bs txt = Ok results.
Proof.
  intros Hperm Hrun.
  assert (Hch : map (fun b => child_end E b txt) bs = map Sent results).
  { clear Hperm. induction Hrun as [|b ents bs' rs' [Hb Hsz] _ IH]; simpl; [reflexivity|].
    rewrite IH. unfold child_end. rewrite Hb.
    apply Nat.leb_le in Hsz. rewrite Hsz. reflexivity. }
  assert (Hlen : length bs = length results) by (eapply Forall2_length; exact Hrun).
  unfold run_in_parallel. rewrite Hch.
  assert (Hall : forallb terminates (map Sent results) = true).
  { apply forallb_forall. intros x Hx. apply in_map_iff in Hx as [r [<- _]]. reflexivity. }
  rewrite Hall.
  assert (Hpipes : foldl (deliver (map Sent results)) (replicate (length bs) None) sched
                   = map Some results).
  { apply list_eq. intros j.
    destruct (decide (j < length results)) as [Hj|Hj].
    - rewrite (deliver_scheduled results j Hj).
      + rewrite lookup_map_list. destruct (results !! j) eqn:Hr; [reflexivity|].
        apply lookup_ge_None in Hr. lia.
      + apply (Permutation_in j (Permutation_sym Hperm)). apply in_seq. lia.
      + rewrite length_replicate. exact Hlen.
    - rewrite lookup_map_list.
      assert (Hn : results !! j = None) by (apply lookup_ge_None; lia). rewrite Hn.
      apply lookup_ge_None. rewrite length_foldl_deliver, length_replicate. lia. }
  rewrite Hpipes. apply recv_all_sent.
Qed.

Lemma lookup_of_In {A} (x : A) (l : list A) : In x l -> exists i, l !! i = Some x.
Proof.
  induction l as [|y l IH]; intros Hx; [destruct Hx|].
  destruct Hx as [->|Hin]; [exists 0; reflexivity|].
  destruct (IH Hin) as [i Hi]. exists (S i). exact Hi.
Qed.

(** C4: even when every backend's [run] returns, [_run_in_parallel] never
    returns once one backend's pickled result does not fit in the pipe
    buffer: that child blocks in [send] and the parent in [join], before any
    pipe is read. *)
Theorem run_in_parallel_blocks_on_large_result (E : Env) (sched : list nat) (bs : list Backend)
    (txt : string) (b : Backend) (ents : list NamedEntity) :
  In b bs -> backend_run E b txt = Ok ents -> (pipe_capacity E < pickled_size E ents)%nat ->
  run_in_parallel E sched bs txt = Hang.
Proof.
  intros Hin Hrun Hbig. unfold run_in_parallel.
  destruct (forallb terminates (map (fun b0 => child_end E b0 txt) bs)) eqn:Hall; [|reflexivity].
  exfalso. rewrite forallb_forall in Hall.
  specialize (Hall (child_end E b txt) (in_map _ _ _ Hin)).
  unfold child_end in Hall. rewrite Hrun in Hall.
  destruct (pickled_size E ents <=? pipe_capacity E)%nat eqn:Hle.
  - apply Nat.leb_le in Hle. lia.
  - discriminate.
Qed.

(** A backend that raises leaves its pipe empty, so [_run_in_parallel]
    returns no list. *)
Lemma run_in_parallel_no_result (E : Env) (sched : list nat) (bs : list Backend) (txt : string)
    (b : Backend) (e : Exc) :
  In b bs -> backend_run E b txt = Exn e -> forall r, run_in_parallel E sched bs txt <> Ok r.
Proof.
  intros Hin Hrun r. unfold run_in_parallel.
  destruct (forallb terminates _); [|discriminate].
  destruct (lookup_of_In b bs Hin) as [j Hj].
  apply (recv_all_empty_pipe E (length bs) _ 0 j).
  rewrite deliver_unsent.
  - apply lookup_replicate_2. apply lookup_lt_Some in Hj. exact Hj.
  - intros ents. rewrite lookup_map_list, Hj. simpl. unfold child_end. rewrite Hrun. discriminate.
Qed.

(** C5: if the [run] of a configured backend raises, [recognize] returns no
    result at all: the call raises or never returns. *)
Theorem recognize_fails_when_backend_raises (E : Env) (sched : list nat) (txt : string) (l : loc)
    (strategy : string) (cw ct : bool) (s s1 : St) (b : Backend) (e : Exc) :
  update_config E l s = (Ok tt, s1) ->
  In b (map snd (backends (core s1))) ->
  backend_run E b txt = Exn e ->
  forall r, fst (recognize E sched txt l strategy cw ct s) <> Ok r.
Proof.
  intros Hup Hin Hrun r. unfold recognize, mbind, M_bind at 1. rewrite Hup.
  unfold run_recognition, gets, lift, mbind, M_bind at 1. simpl.
  pose proof (run_in_parallel_no_result E sched _ txt b e Hin Hrun) as Hno.
  destruct (run_in_parallel E sched (map snd (backends (core s1))) txt) as [rs| |];
    simpl; [exfalso; exact (Hno rs eq_refl) | discriminate | discriminate].
Qed.

(** ** Registering recognizers in the backends *)

Lemma py_in_In (w : string) (lst : list string) : py_in w lst = true <-> In w lst.
Proof.
  unfold py_in. rewrite existsb_exists. split.
  - intros [x [Hx Heq]]. apply String.eqb_eq in Heq. subst x. exact Hx.
  - intros H. exists w. split; [exact H | apply String.eqb_refl].
Qed.

Lemma py_in_false (w : string) (lst : list string) : ~ In w lst -> py_in w lst = false.
Proof.
  intros H. destruct (py_in w lst) eqn:Hp; [|reflexivity].
  exfalso. apply H, py_in_In, Hp.
Qed.

Lemma insert_after_last {A} (key : string) (x : string * A) (v : A) (l : list (string * A)) :
  ~ In key (map fst l) ->
  EntityRulerBackend.insert_after key x (l ++ [(key, v)]) = l ++ [(key, v); x].
Proof.
  induction l as [|y l IH]; intros Hn; simpl.
  - rewrite String.eqb_refl. reflexivity.
  - simpl in Hn. destruct (String.eqb y.1 key) eqn:Hy.
    + apply String.eqb_eq in Hy. exfalso. apply Hn. left. exact Hy.
    + f_equal. apply IH. intros H. apply Hn. right. exact H.
Qed.

Lemma add_patterns_last (pl : list (string * EntityRulerBackend.Component)) (name : string)
    (rules : list (string * string)) :
  ~ In name (map fst pl) ->
  EntityRulerBackend.add_patterns
    (EntityRulerBackend.mkLanguage (pl ++ [(name, EntityRulerBackend.EntityRuler [])])) name rules
  = EntityRulerBackend.mkLanguage (pl ++ [(name, EntityRulerBackend.EntityRuler rules)]).
Proof.
  intros Hn. unfold EntityRulerBackend.add_patterns. simpl. f_equal.
  induction pl as [|p pl IH]; simpl.
  - rewrite String.eqb_refl. reflexivity.
  - simpl in Hn. destruct (String.eqb p.1 name) eqn:Hp.
    + apply String.eqb_eq in Hp. exfalso. apply Hn. left. exact Hp.
    + f_equal. apply IH. intros H. apply Hn. right. exact H.
Qed.

Lemma label_name_neq (n : string) : "label_" +:+ n <> n.
Proof. intros H. apply (f_equal String.length) in H. vm_compute in H. lia. Qed.

(** C7: [EntityRulerBackend.register_recognizer] returns normally when the
    pipes it adds (the recognizer's class name and ["label_"] followed by
    it) are not yet in the pipeline: it appends an entity ruler holding the
    recognizer's patterns under its [TAG], followed by the label setter with
    its [SCORE].  [FlairNerBackend.register_recognizer] raises
    [NotImplementedError] for every recognizer. *)
Theorem register_recognizer_in_backends (nlp : EntityRulerBackend.Language)
    (rc : RecognizerCls) (flair : FlairNerBackend.FlairNerBackend) :
  ~ In (cls_name rc) (EntityRulerBackend.pipe_names nlp) ->
  ~ In ("label_" +:+ cls_name rc) (EntityRulerBackend.pipe_names nlp) ->
  EntityRulerBackend.register_recognizer nlp rc =
    Ok (EntityRulerBackend.mkLanguage
          (EntityRulerBackend.pipeline nlp ++
           [(cls_name rc,
             EntityRulerBackend.EntityRuler (map (fun p => (TAG rc, p)) (patterns rc)));
            ("label_" +:+ cls_name rc, EntityRulerBackend.LabelSetter (SCORE rc) (cls_name rc))])) /\
  FlairNerBackend.register_recognizer flair rc = Exn NotImplementedError.
Proof.
  intros H1 H2. split; [|reflexivity].
  destruct nlp as [pl]. unfold EntityRulerBackend.pipe_names in *. simpl in *.
  unfold EntityRulerBackend.register_recognizer.
  assert (Hadd : EntityRulerBackend.add_pipe (EntityRulerBackend.mkLanguage pl)
                   (EntityRulerBackend.EntityRuler []) (cls_name rc) None =
                 Ok (EntityRulerBackend.mkLanguage
                       (pl ++ [(cls_name rc, EntityRulerBackend.EntityRuler [])]))).
  { unfold EntityRulerBackend.add_pipe, EntityRulerBackend.pipe_names. simpl.
    rewrite (py_in_false _ _ H1). reflexivity. }
  rewrite Hadd. cbv beta iota delta [mbind Res_bind].
  rewrite (add_patterns_last pl _ _ H1).
  unfold EntityRulerBackend.add_pipe, EntityRulerBackend.pipe_names. simpl. rewrite map_app. simpl.
  rewrite (py_in_false ("label_" +:+ cls_name rc)).
  2: { rewrite in_app_iff. intros [H|[H|[]]]; [exact (H2 H) | exact (label_name_neq _ (eq_sym H))]. }
  rewrite (proj2 (py_in_In (cls_name rc) (map fst pl ++ [cls_name rc]))).
  2: { apply in_app_iff. right. left. reflexivity. }
  rewrite (insert_after_last _ _ _ pl H1). reflexivity.
Qed.

(** [FlairNerBackend.register_recognizer] raises. *)
Lemma flair_register_recognizer_raises :
  FlairNerBackend.register_recognizer (FlairNerBackend.mkFlairNerBackend "ner-ontonotes")
    (email_cls (Some [])) = Exn NotImplementedError.
Proof. reflexivity. Qed.

Lemma register_recognizer_in_backends_witness :
  EntityRulerBackend.register_recognizer tagger_parser ruler_cls =
    Ok (EntityRulerBackend.mkLanguage
          [("tagger", EntityRulerBackend.OtherComponent "tagger");
           ("parser", EntityRulerBackend.OtherComponent "parser");
           ("RulerRecognizer", EntityRulerBackend.EntityRuler [("RULE", "ACME")]);
           ("label_RulerRecognizer", EntityRulerBackend.LabelSetter (1#2) "RulerRecognizer")]) /\
  FlairNerBackend.register_recognizer (FlairNerBackend.mkFlairNerBackend "ner") ruler_cls =
    Exn NotImplementedError.
Proof.
  apply (register_recognizer_in_backends tagger_parser ruler_cls
           (FlairNerBackend.mkFlairNerBackend "ner")).
  - vm_compute. intuition discriminate.
  - vm_compute. intuition discriminate.
Defined.

(** ** Context words of a recognizer *)

Lemma boost_context_words_ok_inv (sent : nat -> list Token) (lookup : gmap string RecognizerCls)
    (factor : Q) (ents ents' : list NamedEntity) :
  boost_context_words sent lookup factor ents = Ok ents' ->
  Forall2 (fun e e' => boost_entity sent lookup factor e = Ok e') ents ents'.
Proof.
  revert ents'. induction ents as [|e rest IH]; intros ents' H; simpl in H.
  - injection H as <-. constructor.
  - destruct (boost_entity sent lookup factor e) as [e1| |] eqn:He; try discriminate.
    cbn in H.
    destruct (boost_context_words sent lookup factor rest) as [r1| |] eqn:Hr; try discriminate.
    cbn in H. injection H as <-.
    constructor; [exact He | apply IH; reflexivity].
Qed.

Lemma boost_context_words_not_ok (sent : nat -> list Token) (lookup : gmap string RecognizerCls)
    (factor : Q) (ents : list NamedEntity) (e : NamedEntity) :
  In e ents -> (forall r, boost_entity sent lookup factor e <> Ok r) ->
  forall r, boost_context_words sent lookup factor ents <> Ok r.
Proof.
  induction ents as [|a rest IH]; intros Hin Hno r H; [destruct Hin|].
  simpl in H. destruct Hin as [<-|Hin].
  - destruct (boost_entity sent lookup factor a) as [a'| |] eqn:Ha; cbn in H; try discriminate.
    exact (Hno a' eq_refl).
  - pose proof (IH Hin Hno) as IH'.
    destruct (boost_entity sent lookup factor a) as [a'| |]; cbn in H; try discriminate.
    destruct (boost_context_words sent lookup factor rest) as [r'| |]; cbn in H;
      try discriminate.
    exact (IH' r' eq_refl).
Qed.

(** The loop goes through the entities in order: when every entity before
    [e] has a known recognizer with [CONTEXT_WORDS], the exception [e]
    raises is the exception of the loop, whatever follows [e]. *)
Lemma boost_context_words_first_exn (sent : nat -> list Token)
    (lookup : gmap string RecognizerCls) (factor : Q)
    (pre post : list NamedEntity) (e : NamedEntity) (x : Exc) :
  Forall (fun e0 => exists cls cw, lookup !! recognizer e0 = Some cls /\
                                   CONTEXT_WORDS cls = Some cw) pre ->
  boost_entity sent lookup factor e = Exn x ->
  boost_context_words sent lookup factor (pre ++ e :: post) = Exn x.
Proof.
  intros Hpre He. induction Hpre as [|e0 pre (cls & cw & Hcls & Hcw) _ IH].
  - simpl. rewrite He. reflexivity.
  - simpl. rewrite IH.
    assert (Hok : exists e0', boost_entity sent lookup factor e0 = Ok e0').
    { unfold boost_entity. rewrite Hcls, Hcw.
      destruct (existsb _ cw); eexists; reflexivity. }
    destruct Hok as [e0' ->]. reflexivity.
Qed.

(** C8: [CONTEXT_WORDS] is required of every recognizer whose entities
    reach the context-word loop: the first entity, in order, whose
    recognizer is in [recognizer_lookup] without a [CONTEXT_WORDS]
    attribute makes the loop raise [AttributeError] (the entities before it
    having known recognizers with [CONTEXT_WORDS]), so no list is returned;
    a recognizer with [CONTEXT_WORDS = []] leaves its entities unchanged. *)
Theorem context_words_attribute_required (sent : nat -> list Token)
    (lookup : gmap string RecognizerCls) (factor : Q) :
  (forall pre e post cls,
     Forall (fun e0 => exists cls0 cw, lookup !! recognizer e0 = Some cls0 /\
                                       CONTEXT_WORDS cls0 = Some cw) pre ->
     lookup !! recognizer e = Some cls -> CONTEXT_WORDS cls = None ->
     boost_context_words sent lookup factor (pre ++ e :: post) =
       Exn (AttributeError "CONTEXT_WORDS")) /\
  (forall ents ents', boost_context_words sent lookup factor ents = Ok ents' ->
     Forall2 (fun e e' =>
       (exists cls, lookup !! recognizer e = Some cls /\ CONTEXT_WORDS cls = Some []) -> e' = e)
       ents ents').
Proof.
  split.
  - intros pre e post cls Hpre Hl Hcw. apply boost_context_words_first_exn; [exact Hpre|].
    unfold boost_entity. rewrite Hl, Hcw. reflexivity.
  - intros ents ents' H. apply boost_context_words_ok_inv in H.
    eapply Forall2_impl; [exact H|]. intros e e' He (cls & Hl & Hcw).
    unfold boost_entity in He. rewrite Hl, Hcw in He. simpl in He.
    injection He as <-. reflexivity.
Qed.

(** [recognize(text, config, context_words=True)] with a recognizer that has
    no [CONTEXT_WORDS] attribute raises [AttributeError]. *)
Lemma recognize_context_words_missing_attribute :
  fst (recognize E0 [0%nat] "call +4930" 1 "append" true true (state_with cfg_phone)) =
    Exn (AttributeError "CONTEXT_WORDS").
Proof. vm_compute. reflexivity. Qed.

Lemma context_words_attribute_required_witness :
  boost_context_words (fun _ => text_tokens "mail a@b.de call +4930 Ada")
    {["EmailRecognizer" := email_cls (Some ["mail"]); "PhoneRecognizer" := phone_cls]} (6#5)
    ([mkEntity 5 11 "EMAIL" "a@b.de" (19#20) "EmailRecognizer" 1 2] ++
     mkEntity 17 22 "PHONE" "+4930" (4#5) "PhoneRecognizer" 3 4 ::
     [mkEntity 23 26 "PER" "Ada" (9#10) "StanzaNerBackend" 4 5]) =
    Exn (AttributeError "CONTEXT_WORDS") /\
  boost_context_words (fun _ => text_tokens "Bob") {["NameRecognizer" := name_cls]} (6#5)
    [mkEntity 0 3 "PER" "Bob" (7#10) "NameRecognizer" 0 1] =
    Ok [mkEntity 0 3 "PER" "Bob" (7#10) "NameRecognizer" 0 1].
Proof.
  split.
  - apply (proj1 (context_words_attribute_required (fun _ => text_tokens "mail a@b.de call +4930 Ada")
             {["EmailRecognizer" := email_cls (Some ["mail"]); "PhoneRecognizer" := phone_cls]} (6#5))
           _ _ _ phone_cls).
    + constructor; [|constructor].
      exists (email_cls (Some ["mail"])), ["mail"]. split; [vm_compute; reflexivity | reflexivity].
    + vm_compute. reflexivity.
    + reflexivity.
  - vm_compute. reflexivity.
Defined.

(** ** The spec's scenarios on the concrete environment *)

Lemma boost_context_words_spec_witness :
  Forall2 (fun e e' =>
      (context_word_in_sentence (fun _ => text_tokens mail_text) mail_lookup e ->
         e' = set_score e (py_min (score e * (6#5)) 1) /\ (score e' <= 1)%Q) /\
      (~ context_word_in_sentence (fun _ => text_tokens mail_text) mail_lookup e -> e' = e))
    [mail_ent] [set_score mail_ent 1].
Proof.
  apply (boost_context_words_spec (fun _ => text_tokens mail_text) mail_lookup (6#5)).
  vm_compute. reflexivity.
Defined.

Lemma update_config_keeps_failed_config_witness :
  config (core (snd (update_config E0 1 (state_with cfg_missing)))) = Some 1%positive /\
  update_config E0 1 (snd (update_config E0 1 (state_with cfg_missing))) =
    (Ok tt, snd (update_config E0 1 (state_with cfg_missing))).
Proof.
  apply (update_config_keeps_failed_config E0 1 (state_with cfg_missing)
           (snd (update_config E0 1 (state_with cfg_missing)))
           (ValueError "Configured recognizer recognizers/missing_recognizer.py is not a file")).
  - vm_compute. eexists. reflexivity.
  - intros l0 H. vm_compute in H. discriminate H.
  - vm_compute. reflexivity.
Defined.

(** [update_config] with [load_example_recognizers = True] appends the
    bundled e-mail recognizer to the caller's [recognizer_paths]. *)
Lemma update_config_appends_to_caller_config :
  recognizer_paths cfg_examples = [] /\
  heap (snd (update_config E0 1 (state_with cfg_examples))) !! 1%positive =
    Some (set_recognizer_paths cfg_examples [example_path "email_recognizer.py"]).
Proof. split; [reflexivity | vm_compute; reflexivity]. Qed.

Lemma update_config_config_effect_witness :
  (forall l', l' <> 1%positive ->
     heap (snd (update_config E0 1 (state_with cfg_examples))) !! l' =
     heap (state_with cfg_examples) !! l') /\
  (exists c', heap (snd (update_config E0 1 (state_with cfg_examples))) !! 1%positive = Some c' /\
              grows cfg_examples c') /\
  (load_example_recognizers cfg_examples = false ->
     heap (snd (update_config E0 1 (state_with cfg_examples))) = heap (state_with cfg_examples)).
Proof.
  apply (update_config_config_effect E0 1 (state_with cfg_examples) cfg_examples).
  - vm_compute. reflexivity.
  - intros l0 H. vm_compute in H. discriminate H.
Defined.

Lemma run_in_parallel_blocks_on_large_result_witness :
  run_in_parallel E0 [0%nat] [re_email_backend] many_mails = Hang.
Proof.
  apply (run_in_parallel_blocks_on_large_result E0 [0%nat] [re_email_backend] many_mails
           re_email_backend (re_run ["EmailRecognizer"] many_mails)).
  - left. reflexivity.
  - reflexivity.
  - apply Nat.ltb_lt. vm_compute. reflexivity.
Defined.

Lemma recognize_fails_when_backend_raises_witness :
  (forall r, fst (recognize E0 [0%nat] "Ada" 1 "append" false true (state_with cfg_name)) <> Ok r) /\
  fst (recognize E0 [0%nat] "Ada" 1 "append" false true (state_with cfg_name)) = Hang.
Proof.
  split; [|vm_compute; reflexivity].
  apply (recognize_fails_when_backend_raises E0 [0%nat] "Ada" 1 "append" false true
           (state_with cfg_name) (snd (update_config E0 1 (state_with cfg_name)))
           (mkBackend "SpacyBackend" ["NameRecognizer"]) OSError).
  - vm_compute. reflexivity.
  - vm_compute. left. reflexivity.
  - vm_compute. reflexivity.
Defined.

(** C6: a recognizer declaring the unknown backend ["foo"] makes the first
    [update_config] raise, but the failed config is kept: the next call with
    the same config returns normally, and [recognize] then runs the backends
    built before the error (here the statistical one). *)
Theorem unknown_backend_raises_only_once :
  let r1 := update_config E0 1 (state_with cfg_foo) in
  fst r1 = Exn (ValueError "Unknow backend type foo") /\
  update_config E0 1 (snd r1) = (Ok tt, snd r1) /\
  fst (recognize E0 [0%nat] "Ada a@b.de" 1 "append" false false (snd r1)) =
    Ok [("ents", VEnts [mkEntity 0 3 "PER" "Ada" (9#10) "StanzaNerBackend" 0 1])].
Proof. vm_compute. repeat split; reflexivity. Qed.

Lemma load_other (backend : string) :
  backend <> "spacy" -> backend <> "re" ->
  load backend = Exn (ValueError ("Unknow backend type " +:+ backend)).
Proof.
  intros H1 H2. unfold load.
  destruct (String.eqb_spec backend "spacy"); [contradiction|].
  destruct (String.eqb_spec backend "re"); [contradiction|].
  reflexivity.
Qed.

(** C9: [load] accepts ["spacy"] and ["re"] and raises [ValueError] for
    every other identifier, ["entity-ruler"] included; a config with an
    entity-ruler recognizer makes the first [update_config] raise, and the
    repeat call with the same config returns normally. *)
Theorem load_rejects_entity_ruler :
  load "spacy" = Ok (".spacy_backend", "SpacyBackend") /\
  load "re" = Ok (".re_backend", "ReBackend") /\
  (forall backend, backend <> "spacy" -> backend <> "re" ->
     load backend = Exn (ValueError ("Unknow backend type " +:+ backend))) /\
  load "entity-ruler" = Exn (ValueError "Unknow backend type entity-ruler") /\
  (let r1 := update_config E0 1 (state_with cfg_ruler) in
   fst r1 = Exn (ValueError "Unknow backend type entity-ruler") /\
   update_config E0 1 (snd r1) = (Ok tt, snd r1)).
Proof.
  split; [reflexivity|]. split; [reflexivity|]. split; [exact load_other|].
  split; [reflexivity|].
  vm_compute. split; reflexivity.
Qed.

Lemma foldl_deliver_nil (children : list ChildEnd) (sched : list nat) :
  foldl (deliver children) [] sched = [].
Proof.
  apply nil_length_inv. rewrite length_foldl_deliver. reflexivity.
Qed.

(** Without backends and with a tokenizer, [recognize] returns
    [{"tokens": tokens, "ents": []}] or [{"ents": []}]. *)
Lemma recognize_without_backends (E : Env) (sched : list nat) (txt : string) (l : loc)
    (strategy : string) (cw ct : bool) (s s1 : St) (tk : Tokenizer) :
  update_config E l s = (Ok tt, s1) -> backends (core s1) = [] -> tokenizer (core s1) = Some tk ->
  recognize E sched txt l strategy cw ct s =
    (Ok (dict_set "ents" (VEnts [])
           (if ct then [("tokens", VTokens (tokenize E tk txt))] else [])), s1).
Proof.
  intros Hup Hb Htk. unfold recognize, mbind, M_bind at 1. rewrite Hup.
  unfold run_recognition, gets, lift, mbind, M_bind at 1. simpl. rewrite Hb. simpl.
  unfold run_in_parallel. simpl. rewrite foldl_deliver_nil. simpl.
  unfold tokenize_step, gets, mbind, M_bind. simpl.
  destruct ct, cw; simpl; rewrite ?Htk; reflexivity.
Qed.

(** C10: when [Tokenizer(language)] raises, [recognize] raises and the core
    keeps the config but no tokenizer; the next [recognize] with the same
    config finds no backends and, with [compute_tokens=True], raises
    [AttributeError] on [core.tokenizer.tokenize] instead of returning
    [{"tokens": [], "ents": []}]. *)
Theorem recognize_no_backends_after_failed_tokenizer :
  let r1 := recognize E0 [] "Hello" 1 "append" false true (state_with cfg_xx) in
  fst r1 = Exn OSError /\
  backends (core (snd r1)) = [] /\ config (core (snd r1)) = Some 1%positive /\
  tokenizer (core (snd r1)) = None /\
  fst (recognize E0 [] "Hello" 1 "append" false true (snd r1)) = Exn (AttributeError "tokenize").
Proof. vm_compute. repeat split; reflexivity. Qed.

(** * Further properties of the code *)

(** ** [Core.update_config] *)

(** A call of [update_config] that returns is idempotent: calling it again
    with the same config object returns at once and changes nothing. *)
Theorem update_config_idempotent (E : Env) (l : loc) (s s' : St) :
  is_Some (heap s !! l) -> wf_state s ->
  update_config E l s = (Ok tt, s') -> update_config E l s' = (Ok tt, s').
Proof.
  intros [c Hc] Hwf Hup.
  destruct (update_config_cases E l s c Hc Hwf) as [H|H]; rewrite H in Hup.
  - injection Hup as <-. exact H.
  - rewrite rebuild_unfold in Hup.
    pose proof (retains_rebuild_body E l l c (mkSt (heap s) (set_config (Some l) (core s))))
      as [Hcfg Hsome].
    rewrite Hup in Hcfg, Hsome. simpl in Hcfg, Hsome.
    destruct (Hsome (ex_intro _ c Hc)) as [c' Hc'].
    unfold update_config, deref, mbind, M_bind. rewrite Hc'.
    unfold equals_current, gets, mbind, M_bind. simpl. rewrite Hcfg. simpl.
    unfold deref. rewrite Hc'. simpl. rewrite config_eqb_refl. reflexivity.
Qed.

Lemma update_config_idempotent_witness :
  update_config E0 1 (snd (update_config E0 1 (state_with cfg_examples))) =
    (Ok tt, snd (update_config E0 1 (state_with cfg_examples))).
Proof.
  apply (update_config_idempotent E0 1 (state_with cfg_examples)).
  - vm_compute. eexists. reflexivity.
  - intros l0 H. vm_compute in H. discriminate H.
  - vm_compute. reflexivity.
Defined.

(** ** [recognize] *)

Lemma M_bind_ok {A B} (m : M A) (f : A -> M B) (s s' : St) (b : B) :
  (m ≫= f) s = (Ok b, s') -> exists a s1, m s = (Ok a, s1) /\ f a s1 = (Ok b, s').
Proof.
  unfold mbind, M_bind. destruct (m s) as [[a|e|] s1]; intros H; [eauto|discriminate|discriminate].
Qed.

(** When [recognize] returns a dict, its keys are ["tokens"] then ["ents"]
    with [compute_tokens=True], and ["ents"] alone otherwise. *)
Theorem recognize_result_keys (E : Env) (sched : list nat) (txt : string) (l : loc)
    (strategy : string) (cw ct : bool) (s s' : St) (d : list (string * PyVal)) :
  recognize E sched txt l strategy cw ct s = (Ok d, s') ->
  map fst d = if ct then ["tokens"; "ents"] else ["ents"].
Proof.
  intros H. unfold recognize in H.
  apply M_bind_ok in H as (u & s1 & _ & H).
  apply M_bind_ok in H as (results & s2 & _ & H).
  apply M_bind_ok in H as (ents & s3 & _ & H).
  apply M_bind_ok in H as (et & s4 & _ & H).
  apply M_bind_ok in H as (ents' & s5 & _ & H).
  unfold mret, M_ret in H. injection H as <- _. destruct ct; reflexivity.
Qed.

Lemma recognize_result_keys_witness :
  map fst [("tokens", VTokens [mkToken 0 "Ada"]); ("ents", VEnts [])] = ["tokens"; "ents"].
Proof.
  apply (recognize_result_keys E0 [0%nat] "Ada" 1 "append" false true
           (state_with cfg_examples)
           (snd (recognize E0 [0%nat] "Ada" 1 "append" false true (state_with cfg_examples)))).
  vm_compute. reflexivity.
Defined.

Lemma recognize_without_backends_witness :
  recognize E0 [] "Ada" 1 "append" true true (state_with (cfg_of [])) =
    (Ok [("tokens", VTokens [mkToken 0 "Ada"]); ("ents", VEnts [])],
     snd (update_config E0 1 (state_with (cfg_of [])))).
Proof.
  apply (recognize_without_backends E0 [] "Ada" 1 "append" true true (state_with (cfg_of []))
           (snd (update_config E0 1 (state_with (cfg_of [])))) (mkTokenizer "en")).
  - vm_compute. reflexivity.
  - vm_compute. reflexivity.
  - vm_compute. reflexivity.
Defined.

(** ** [Core._run_in_parallel] *)

Lemma run_in_parallel_in_order_witness :
  run_in_parallel E0 [1%nat; 0%nat] [re_email_backend; mkBackend "StanzaNerBackend" []]
    "Ada a@b.de" =
  Ok [[mkEntity 4 10 "EMAIL" "a@b.de" (19#20) "EmailRecognizer" 1 2];
      [mkEntity 0 3 "PER" "Ada" (9#10) "StanzaNerBackend" 0 1]].
Proof.
  apply run_in_parallel_in_order.
  - vm_compute. apply perm_swap.
  - repeat (apply List.Forall2_cons; [split; [vm_compute; reflexivity
                                       | apply Nat.leb_le; vm_compute; reflexivity]|]).
    apply List.Forall2_nil.
Defined.

(** ** [EntityRulerBackend.register_recognizer] *)

Lemma insert_after_names {A} (key : string) (x : string * A) (l : list (string * A)) :
  In key (map fst l) ->
  forall n, In n (map fst (EntityRulerBackend.insert_after key x l)) <-> In n (map fst l) \/ n = x.1.
Proof.
  induction l as [|y l IH]; intros Hk n; [destruct Hk|]. simpl.
  destruct (String.eqb y.1 key) eqn:Hy; simpl.
  - split; [intros [H|[H|H]]; auto | intros [[H|H]|H]; auto].
  - simpl in Hk. destruct Hk as [Hk|Hk].
    + apply String.eqb_neq in Hy. contradiction.
    + rewrite (IH Hk n). tauto.
Qed.

Lemma add_patterns_names (nlp : EntityRulerBackend.Language) (name : string)
    (rules : list (string * string)) :
  EntityRulerBackend.pipe_names (EntityRulerBackend.add_patterns nlp name rules) =
  EntityRulerBackend.pipe_names nlp.
Proof.
  destruct nlp as [pl]. unfold EntityRulerBackend.pipe_names, EntityRulerBackend.add_patterns. simpl.
  induction pl as [|p pl IH]; simpl; [reflexivity|]. rewrite IH. f_equal.
  destruct (String.eqb p.1 name); [destruct p.2|]; reflexivity.
Qed.

Lemma add_pipe_names (nlp nlp' : EntityRulerBackend.Language) (comp : EntityRulerBackend.Component)
    (name : string) (after : option string) :
  EntityRulerBackend.add_pipe nlp comp name after = Ok nlp' ->
  forall n, In n (EntityRulerBackend.pipe_names nlp') <->
            In n (EntityRulerBackend.pipe_names nlp) \/ n = name.
Proof.
  unfold EntityRulerBackend.add_pipe. destruct (py_in name _); [discriminate|].
  destruct after as [a|].
  - destruct (py_in a (EntityRulerBackend.pipe_names nlp)) eqn:Ha; [|discriminate].
    intros H. injection H as <-. intros n.
    unfold EntityRulerBackend.pipe_names. simpl.
    apply (insert_after_names a (name, comp)). apply py_in_In. exact Ha.
  - intros H. injection H as <-. intros n.
    unfold EntityRulerBackend.pipe_names. simpl. rewrite map_app, in_app_iff. simpl.
    split; [intros [H|[H|[]]]; [left; exact H | right; symmetry; exact H]
           |intros [H|H]; [left; exact H | right; left; symmetry; exact H]].
Qed.

Lemma register_recognizer_adds_name (nlp nlp' : EntityRulerBackend.Language) (rc : RecognizerCls) :
  EntityRulerBackend.register_recognizer nlp rc = Ok nlp' ->
  In (cls_name rc) (EntityRulerBackend.pipe_names nlp').
Proof.
  unfold EntityRulerBackend.register_recognizer.
  destruct (EntityRulerBackend.add_pipe nlp _ (cls_name rc) None) as [nlp1| |] eqn:H1;
    cbn; try discriminate.
  intros H2.
  apply (add_pipe_names _ _ _ _ _ H2). left.
  rewrite add_patterns_names. apply (add_pipe_names _ _ _ _ _ H1). right. reflexivity.
Qed.

(** Once a recognizer class is registered in an [EntityRulerBackend], no
    recognizer class of the same [__name__] (the same class included) can be
    registered in it: spaCy refuses the second pipe of that name. *)
Theorem entity_ruler_register_same_name_twice (nlp nlp' : EntityRulerBackend.Language)
    (rc rc' : RecognizerCls) :
  EntityRulerBackend.register_recognizer nlp rc = Ok nlp' ->
  cls_name rc' = cls_name rc ->
  EntityRulerBackend.register_recognizer nlp' rc' = Exn (ValueError "E007").
Proof.
  intros H Hn. pose proof (register_recognizer_adds_name _ _ _ H) as Hin.
  unfold EntityRulerBackend.register_recognizer, EntityRulerBackend.add_pipe.
  rewrite Hn, (proj2 (py_in_In _ _) Hin). reflexivity.
Qed.

Lemma entity_ruler_register_same_name_twice_witness :
  EntityRulerBackend.register_recognizer
    (EntityRulerBackend.mkLanguage
       [("tagger", EntityRulerBackend.OtherComponent "tagger");
        ("parser", EntityRulerBackend.OtherComponent "parser");
        ("RulerRecognizer", EntityRulerBackend.EntityRuler [("RULE", "ACME")]);
        ("label_RulerRecognizer", EntityRulerBackend.LabelSetter (1#2) "RulerRecognizer")])
    ruler_cls = Exn (ValueError "E007").
Proof.
  apply (entity_ruler_register_same_name_twice tagger_parser _ ruler_cls ruler_cls).
  - vm_compute. reflexivity.
  - reflexivity.
Defined.

(** ** [Core._add_examples_to_config_recognizer_paths] *)

Lemma add_examples_loop_spec (l : loc) (files : list string) :
  forall s c, heap s !! l = Some c ->
  exists c', add_examples_loop l files s = (Ok tt, mkSt (<[l := c']> (heap s)) (core s)) /\
    (NoDup (recognizer_paths c) -> NoDup (recognizer_paths c')) /\
    (forall p, In p (recognizer_paths c) -> In p (recognizer_paths c')) /\
    (forall f, In f files -> ends_with f "_recognizer.py" = true ->
               In (example_path f) (recognizer_paths c')).
Proof.
  induction files as [|f files IH]; intros s c Hc.
  - exists c. destruct s as [h k]. simpl in *. rewrite insert_id by exact Hc.
    split; [reflexivity|]. split; [auto|]. split; [auto|]. intros f [].
  - simpl. unfold mbind at 1, M_bind at 1.
    destruct (ends_with f "_recognizer.py") eqn:Hf.
    + unfold mbind, M_bind at 1, deref. rewrite Hc.
      destruct (py_in (example_path f) (recognizer_paths c)) eqn:Hpy.
      * destruct (IH s c Hc) as (c' & Hrun & Hnd & Hkeep & Hall).
        exists c'. split; [exact Hrun|]. split; [exact Hnd|]. split; [exact Hkeep|].
        intros f' [<-|Hin] Hf'; [|exact (Hall f' Hin Hf')].
        apply Hkeep. apply py_in_In. exact Hpy.
      * set (c1 := set_recognizer_paths c (recognizer_paths c ++ [example_path f])).
        assert (Hc1 : heap (mkSt (<[l := c1]> (heap s)) (core s)) !! l = Some c1)
          by (simpl; apply lookup_insert_eq).
        destruct (IH _ c1 Hc1) as (c' & Hrun & Hnd & Hkeep & Hall).
        unfold write_heap. simpl. rewrite Hrun. simpl. rewrite insert_insert_eq.
        exists c'. split; [reflexivity|].
        assert (Hin1 : forall p, In p (recognizer_paths c) -> In p (recognizer_paths c1)).
        { intros p Hp. simpl. apply in_app_iff. left. exact Hp. }
        split; [|split].
        -- intros Hndc. apply Hnd. simpl. apply NoDup_app. split; [exact Hndc|].
           split; [|apply NoDup_singleton].
           intros x Hx Hx'. apply list_elem_of_singleton in Hx'. subst x.
           apply list_elem_of_In in Hx. apply py_in_In in Hx. congruence.
        -- intros p Hp. apply Hkeep, Hin1, Hp.
        -- intros f' [<-|Hin] Hf'; [|exact (Hall f' Hin Hf')].
           apply Hkeep. simpl. apply in_app_iff. right. left. reflexivity.
    + unfold mret, M_ret. simpl.
      destruct (IH s c Hc) as (c' & Hrun & Hnd & Hkeep & Hall).
      exists c'. split; [exact Hrun|]. split; [exact Hnd|]. split; [exact Hkeep|].
      intros f' [<-|Hin] Hf'; [congruence | exact (Hall f' Hin Hf')].
Qed.

(** With [self.config] the object [c] and the example directory listing
    [files], [_add_examples_to_config_recognizer_paths] returns, keeps every
    path of [c.recognizer_paths], adds the path of every file of [files]
    ending in [_recognizer.py], and adds no path twice: a list without
    duplicates stays without duplicates. *)
Theorem add_examples_complete_no_dup (E : Env) (s : St) (l : loc) (c : Config)
    (files : list string) :
  config (core s) = Some l -> heap s !! l = Some c -> listdir_examples E = Ok files ->
  exists c', add_examples_to_config_recognizer_paths E s =
               (Ok tt, mkSt (<[l := c']> (heap s)) (core s)) /\
    (NoDup (recognizer_paths c) -> NoDup (recognizer_paths c')) /\
    (forall p, In p (recognizer_paths c) -> In p (recognizer_paths c')) /\
    (forall f, In f files -> ends_with f "_recognizer.py" = true ->
               In (example_path f) (recognizer_paths c')).
Proof.
  intros Hl Hc Hfiles. unfold add_examples_to_config_recognizer_paths, gets, mbind, M_bind.
  simpl. rewrite Hl. unfold lift. rewrite Hfiles.
  exact (add_examples_loop_spec l files s c Hc).
Qed.

Lemma add_examples_complete_no_dup_witness :
  exists c', add_examples_to_config_recognizer_paths E0 examples_configured =
             (Ok tt, mkSt (<[1%positive := c']> (heap examples_configured))
                          (core examples_configured)) /\
    (NoDup (recognizer_paths cfg_examples) -> NoDup (recognizer_paths c')) /\
    (forall p, In p (recognizer_paths cfg_examples) -> In p (recognizer_paths c')) /\
    (forall f, In f ["__init__.py"; "email_recognizer.py"] -> ends_with f "_recognizer.py" = true ->
               In (example_path f) (recognizer_paths c')).
Proof.
  apply (add_examples_complete_no_dup E0 examples_configured 1 cfg_examples
           ["__init__.py"; "email_recognizer.py"]).
  - reflexivity.
  - vm_compute. reflexivity.
  - reflexivity.
Defined.

(** ** What a successful [update_config] leaves in the core *)

Lemma dict_set_keys {V} (k : string) (v : V) (d : list (string * V)) :
  forall x, In x (map fst (dict_set k v d)) <-> In x (map fst d) \/ x = k.
Proof.
  induction d as [|[k' v'] d IH]; intros x; simpl.
  - split; [intros [H|[]]; right; symmetry; exact H | intros [[]|H]; left; symmetry; exact H].
  - destruct (String.eqb k k') eqn:Hk; simpl.
    + apply String.eqb_eq in Hk. subst k'.
      split; [intros [H|H]; [left; left; exact H | left; right; exact H]
             |intros [[H|H]|H]; [left; exact H | right; exact H | left; symmetry; exact H]].
    + rewrite IH. tauto.
Qed.

Lemma dict_get_In {V} (k : string) (d : list (string * V)) (v : V) :
  dict_get k d = Some v -> In k (map fst d).
Proof.
  induction d as [|[k' v'] d IH]; simpl; [discriminate|].
  destruct (String.eqb k k') eqn:Hk.
  - intros _. left. symmetry. apply String.eqb_eq. exact Hk.
  - intros H. right. exact (IH H).
Qed.

Lemma add_to_lookup_ok (E : Env) (rc : RecognizerCls) (s s1 : St) :
  add_to_lookup rc s = (Ok tt, s1) ->
  exists lk, recognizer_lookup (core s) = Some lk /\
             s1 = mkSt (heap s) (set_lookup (Some (<[cls_name rc := rc]> lk)) (core s)).
Proof.
  unfold add_to_lookup, gets, mbind, M_bind. simpl.
  destruct (recognizer_lookup (core s)) as [lk|]; [|discriminate].
  unfold modify_core. intros H. injection H as <-. eauto.
Qed.

Lemma ensure_backend_ok (E : Env) (cfg : Config) (rc : RecognizerCls) (s s1 : St) :
  ensure_backend E cfg rc s = (Ok tt, s1) ->
  exists b, s1 = mkSt (heap s) (set_backends b (core s)) /\
    (forall k, In k (map fst b) <-> In k (backend_keys s) \/ k = BACKEND rc) /\
    (In (BACKEND rc) (backend_keys s) \/ BACKEND rc = "spacy" \/ BACKEND rc = "re").
Proof.
  unfold ensure_backend, gets, mbind, M_bind. simpl.
  destruct (dict_get (BACKEND rc) (backends (core s))) as [b0|] eqn:Hg.
  - intros H. injection H as <-. exists (backends (core s)).
    pose proof (dict_get_In _ _ _ Hg) as Hin.
    split; [destruct s as [h [c0 bs t lk]]; reflexivity|].
    split; [intros k; unfold backend_keys; split; [auto | intros [H| ->]; auto] | left; exact Hin].
  - unfold lift. unfold load.
    destruct (String.eqb (BACKEND rc) "spacy") eqn:Hs;
      [|destruct (String.eqb (BACKEND rc) "re") eqn:Hr]; simpl; try discriminate;
      destruct (String.eqb (BACKEND rc) "entity-ruler");
      [destruct (construct_backend_lang E _ _) as [bi| |]
      |destruct (construct_backend E _) as [bi| |]
      |destruct (construct_backend_lang E _ _) as [bi| |]
      |destruct (construct_backend E _) as [bi| |]]; simpl; try discriminate;
      unfold modify_core; intros H; injection H as <-;
      eexists; (split; [reflexivity|]); (split; [intros k; apply dict_set_keys|]);
      right; [left|left|right|right]; apply String.eqb_eq; assumption.
Qed.

Lemma register_in_backend_ok (E : Env) (rc : RecognizerCls) (s s1 : St) :
  register_in_backend E rc s = (Ok tt, s1) ->
  exists b, s1 = mkSt (heap s) (set_backends b (core s)) /\
    (forall k, In k (map fst b) <-> In k (backend_keys s)).
Proof.
  unfold register_in_backend, gets, mbind, M_bind. simpl.
  destruct (dict_get (BACKEND rc) (backends (core s))) as [b0|] eqn:Hg; [|discriminate].
  unfold lift. destruct (register_recognizer E b0 rc) as [b'| |]; simpl; try discriminate.
  unfold modify_core. intros H. injection H as <-. eexists. split; [reflexivity|].
  intros k. rewrite dict_set_keys. unfold backend_keys.
  pose proof (dict_get_In _ _ _ Hg) as Hin. split; [intros [H| ->]; auto | auto].
Qed.

Lemma register_paths_ok (E : Env) (cfg : Config) (ps : list string) :
  forall s s', register_paths E cfg ps s = (Ok tt, s') ->
  heap s' = heap s /\ config (core s') = config (core s) /\
  tokenizer (core s') = tokenizer (core s) /\
  (forall k, In k (backend_keys s) -> In k (backend_keys s')) /\
  (forall k, In k (backend_keys s') -> In k (backend_keys s) \/ k = "spacy" \/ k = "re") /\
  (forall lk, recognizer_lookup (core s) = Some lk ->
     exists lk', recognizer_lookup (core s') = Some lk' /\
                 forall n, is_Some (lk !! n) -> is_Some (lk' !! n)) /\
  (forall p, In p ps ->
     isfile E p = true /\
     exists rc, load_class E p = Ok rc /\
       (exists lk, recognizer_lookup (core s') = Some lk /\ is_Some (lk !! cls_name rc)) /\
       In (BACKEND rc) (backend_keys s')).
Proof.
  induction ps as [|p ps IH]; intros s s' H.
  - simpl in H. injection H as <-.
    split; [reflexivity|]. split; [reflexivity|]. split; [reflexivity|].
    split; [auto|]. split; [auto|]. split; [|intros p []].
    intros lk Hlk. exists lk. split; [exact Hlk | auto].
  - simpl in H. destruct (isfile E p) eqn:Hf; simpl in H; [|discriminate].
    apply M_bind_ok in H as (rc & s1 & H1 & H). unfold lift in H1.
    destruct (load_class E p) as [rc0|e|] eqn:Hrc; try discriminate H1.
    injection H1 as -> <-.
    apply M_bind_ok in H as ([] & s2 & H2 & H).
    apply M_bind_ok in H as ([] & s3 & H3 & H).
    apply M_bind_ok in H as ([] & s4 & H4 & H).
    apply add_to_lookup_ok in H2 as (lk0 & Hlk0 & ->); [|exact E].
    apply ensure_backend_ok in H3 as (b3 & -> & Hk3 & Hb3).
    apply register_in_backend_ok in H4 as (b4 & -> & Hk4).
    destruct (IH _ _ H) as (Hh & Hc & Ht & Hmono & Hnew & Hlk & Hps).
    unfold backend_keys in *. simpl in *.
    split; [exact Hh|]. split; [exact Hc|]. split; [exact Ht|].
    split; [|split; [|split]].
    + intros k Hk. apply Hmono. apply Hk4. apply Hk3. left. exact Hk.
    + intros k Hk. destruct (Hnew k Hk) as [Hk'|Hk']; [|right; exact Hk'].
      apply Hk4 in Hk'. apply Hk3 in Hk' as [Hk'| ->]; [left; exact Hk'|].
      destruct Hb3 as [Hb3|Hb3]; [left; exact Hb3 | right; exact Hb3].
    + intros lk Hl. rewrite Hl in Hlk0. injection Hlk0 as <-.
      destruct (Hlk _ eq_refl) as (lk' & Hl' & Hsub).
      exists lk'. split; [exact Hl'|]. intros n Hn. apply Hsub.
      destruct (decide (n = cls_name rc)) as [->|Hne].
      * rewrite lookup_insert_eq. eexists. reflexivity.
      * rewrite lookup_insert_ne by congruence. exact Hn.
    + intros p' [<-|Hin]; [|exact (Hps p' Hin)].
      split; [exact Hf|]. exists rc. split; [exact Hrc|]. split.
      * destruct (Hlk _ eq_refl) as (lk' & Hl' & Hsub). exists lk'. split; [exact Hl'|].
        apply Hsub. rewrite lookup_insert_eq. eexists. reflexivity.
      * apply Hmono. apply Hk4. apply Hk3. right. reflexivity.
Qed.

Lemma rebuild_body_configured (E : Env) (l : loc) (c : Config) (s0 s1 : St) :
  config (core s0) = Some l -> heap s0 !! l = Some c ->
  rebuild_body E l c s0 = (Ok tt, s1) -> configured E s1.
Proof.
  intros Hl0 Hc0 H.
  pose proof (config_frame_rebuild_body E l c s0 Hl0) as Hfr.
  rewrite H in Hfr. simpl in Hfr.
  destruct Hfr as (Hl1 & _ & Hgrow). destruct (Hgrow c Hc0) as (c1 & Hc1 & Hg).
  unfold rebuild_body in H.
  apply M_bind_ok in H as (tk & sA & HA & H). unfold lift in HA.
  destruct (make_tokenizer E (language c)) as [tk0|e|]; try discriminate HA.
  injection HA as -> <-.
  apply M_bind_ok in H as ([] & sB & HB & H). unfold modify_core in HB. injection HB as <-.
  apply M_bind_ok in H as ([] & sC & HC & H). unfold modify_core in HC. injection HC as <-.
  apply M_bind_ok in H as ([] & sD & HD & H).
  assert (HsD : backend_keys sD = (if use_statistical_ner c then ["stanza"] else []) /\
                config (core sD) = Some l /\ tokenizer (core sD) = Some tk /\
                heap sD = heap s0).
  { destruct (use_statistical_ner c).
    - apply M_bind_ok in HD as (b & sX & HX & HD). unfold lift in HX.
      destruct (make_stanza E (language c)) as [b0|e|]; try discriminate HX.
      injection HX as -> <-. unfold modify_core in HD. injection HD as <-.
      unfold backend_keys. simpl. auto.
    - injection HD as <-. unfold backend_keys. simpl. auto. }
  clear HD. destruct HsD as (HkD & HlD & HtD & HhD).
  apply M_bind_ok in H as ([] & sE & HE & H).
  assert (HcE : core sE = core sD).
  { destruct (load_example_recognizers c).
    - unfold add_examples_to_config_recognizer_paths, gets in HE.
      apply M_bind_ok in HE as (o & sY & HY & HE). injection HY as <- <-.
      rewrite HlD in HE.
      apply M_bind_ok in HE as (files & sZ & HZ & HE). unfold lift in HZ.
      destruct (listdir_examples E) as [fs|e|]; try discriminate HZ.
      injection HZ as -> <-.
      assert (HcD : heap sD !! l = Some c) by (rewrite HhD; exact Hc0).
      destruct (add_examples_loop_spec l files sD c HcD) as (c' & Heq & _).
      rewrite Heq in HE. injection HE as <-. reflexivity.
    - injection HE as <-. reflexivity. }
  apply M_bind_ok in H as ([] & sF & HF & H). unfold modify_core in HF. injection HF as <-.
  apply M_bind_ok in H as (c' & sG & HG & H). unfold deref in HG. simpl in HG.
  destruct (heap sE !! l) as [cE|] eqn:HcE'; [|discriminate HG].
  injection HG as Hc' HsG. subst cE sG.
  destruct (register_paths_ok E c' (recognizer_paths c') _ _ H)
    as (Hh & Hc & Ht & Hmono & Hnew & Hlk & Hps).
  simpl in Hh, Hc, Ht.
  assert (c' = c1) as ->. { rewrite Hh in Hc1. congruence. }
  intros l2 c2 Hl2 Hc2. rewrite Hl1 in Hl2. injection Hl2 as <-.
  rewrite Hc1 in Hc2. injection Hc2 as <-.
  unfold backend_keys in *. simpl in *. rewrite HcE in *.
  split; [rewrite Ht, HtD; eexists; reflexivity|].
  split; [exact Hps|].
  destruct Hg as (_ & Huse & _).
  split.
  - intros k Hk. destruct (Hnew k Hk) as [Hk'|Hk']; [|right; exact Hk'].
    rewrite HkD in Hk'. left. destruct (use_statistical_ner c); simpl in Hk'; intuition.
  - rewrite Huse. split.
    + intros Hk. destruct (Hnew _ Hk) as [Hk'|[Hk'|Hk']]; try discriminate.
      rewrite HkD in Hk'. destruct (use_statistical_ner c); [reflexivity|contradiction].
    + intros Huc. apply Hmono. rewrite HkD, Huc. left. reflexivity.
Qed.

(** A successful [update_config] keeps the core consistent with its
    config: if the core is consistent before the call (a fresh core, with no
    config, is), then after a normal return a tokenizer exists, every
    configured recognizer path is a file whose class is in the lookup and
    whose backend is built, the backends are among "stanza", "spacy" and
    "re", and "stanza" is built exactly when [use_statistical_ner] is set.
    The precondition is needed: after a failed call (C2) the core is left
    inconsistent and a repeat call returns without rebuilding it. *)
Theorem update_config_configured (E : Env) (l : loc) (s s' : St) :
  is_Some (heap s !! l) -> wf_state s -> configured E s ->
  update_config E l s = (Ok tt, s') -> configured E s'.
Proof.
  intros [c Hc] Hwf Hconf H.
  destruct (update_config_cases E l s c Hc Hwf) as [Hsk|Hrb].
  - rewrite Hsk in H. injection H as <-. exact Hconf.
  - rewrite Hrb, rebuild_unfold in H.
    exact (rebuild_body_configured E l c (mkSt (heap s) (set_config (Some l) (core s))) s' eq_refl Hc H).
Qed.

Lemma update_config_configured_witness :
  configured E0 (snd (update_config E0 1 (state_with cfg_examples))).
Proof.
  apply (update_config_configured E0 1 (state_with cfg_examples)).
  - vm_compute. eexists. reflexivity.
  - intros l0 H. vm_compute in H. discriminate H.
  - intros l0 c0 H. vm_compute in H. discriminate H.
  - vm_compute. reflexivity.
Defined.

(** ** The class name of [Core._load_class] *)

Lemma rfind_from_app (ch : Z) (a b : ustr) (i best : Z) :
  rfind_from ch (a ++ b) i best =
  rfind_from ch b (i + Z.of_nat (length a)) (rfind_from ch a i best).
Proof.
  revert i best. induction a as [|c a IH]; intros i best; simpl.
  - rewrite Z.add_0_r. reflexivity.
  - rewrite IH. f_equal. lia.
Qed.

Lemma rfind_from_none (ch : Z) (b : ustr) (i best : Z) :
  ~ In ch b -> rfind_from ch b i best = best.
Proof.
  revert i best. induction b as [|c b IH]; intros i best H; simpl; [reflexivity|].
  destruct (Z.eqb_spec c ch) as [->|_]; [exfalso; apply H; left; reflexivity|].
  apply IH. intros Hin. apply H. right. exact Hin.
Qed.

Lemma drop_after (a l : ustr) (k : nat) : drop (length a + k) (a ++ l) = drop k l.
Proof. induction a as [|c a IH]; simpl; [reflexivity | exact IH]. Qed.

Lemma take_after (a l : ustr) (k : nat) : take (length a + k) (a ++ l) = a ++ take k l.
Proof. induction a as [|c a IH]; simpl; [reflexivity | rewrite IH; reflexivity]. Qed.

Lemma py_split_aux_app_sep (sep : Z) (a b cur : ustr) :
  py_split_aux sep (a ++ sep :: b) cur = py_split_aux sep a cur ++ py_split_aux sep b [].
Proof.
  revert cur. induction a as [|c a IH]; intros cur; simpl.
  - rewrite Z.eqb_refl. reflexivity.
  - destruct (Z.eqb c sep); [rewrite IH; reflexivity | apply IH].
Qed.

Lemma title_aux_ascii (to_title_full : Z -> ustr) (lower_ucs4 : ustr -> nat -> Z -> ustr)
    (is_cased : Z -> bool) (data : ustr) :
  agrees_on_ascii to_title_full lower_ucs4 is_cased ->
  forall rest i p, Forall (fun c => (0 <= c < 128)%Z) rest ->
  title_aux to_title_full lower_ucs4 is_cased data i p rest =
  title_aux ascii_title_full (fun _ _ c => ascii_lower c) ascii_is_cased data i p rest.
Proof.
  intros Hdb rest. induction rest as [|c rest IH]; intros i p Hrest; [reflexivity|].
  inversion Hrest as [|? ? Hc Hrest']; subst.
  destruct (Hdb c Hc) as (Ht & Hl & Hcase). simpl.
  rewrite Ht, Hl, Hcase, IH by exact Hrest'. reflexivity.
Qed.

(** The class [_load_class] looks up in a module [<dir>/<w>_recognizer.py]
    is the title-cased [_]-separated words of [w] followed by [Recognizer],
    whatever the directory: [email_recognizer.py] defines
    [EmailRecognizer], [ärzte_recognizer.py] defines [ÄrzteRecognizer].
    The only property of the Unicode database used is its standard
    behaviour on ASCII code points. *)
Theorem class_name_of_recognizer_path (to_title_full : Z -> ustr)
    (lower_ucs4 : ustr -> nat -> Z -> ustr) (is_cased : Z -> bool) (d w : ustr) :
  agrees_on_ascii to_title_full lower_ucs4 is_cased ->
  ~ In 47%Z w -> ~ In 46%Z w ->
  class_name to_title_full lower_ucs4 is_cased (d ++ [47%Z] ++ w ++ ascii_codes "_recognizer.py") =
  concat (map (title to_title_full lower_ucs4 is_cased) (py_split 95 w)) ++ ascii_codes "Recognizer".
Proof.
  intros Hdb Hsl Hdot.
  set (x := w ++ ascii_codes "_recognizer.py").
  assert (Hx : ~ In 47%Z x).
  { unfold x. rewrite in_app_iff. intros [H|H]; [exact (Hsl H)|].
    cbv in H. repeat (destruct H as [H|H]; [discriminate H|]). exact H. }
  assert (Hbase : basename (d ++ [47%Z] ++ x) = x).
  { unfold basename, rfind. rewrite rfind_from_app. simpl rfind_from at 1.
    rewrite rfind_from_none by exact Hx.
    replace (Z.to_nat (0 + Z.of_nat (length d) + 1)) with (length d + 1)%nat by lia.
    rewrite drop_after. reflexivity. }
  assert (Hdot_idx : rfind 46 x = (Z.of_nat (length w) + 11)%Z).
  { unfold rfind, x. rewrite rfind_from_app, (rfind_from_none 46 w) by exact Hdot.
    simpl. lia. }
  assert (Hsep_idx : rfind 47 x = (-1)%Z).
  { unfold rfind. apply rfind_from_none. exact Hx. }
  assert (Hroot : splitext_root x = w ++ 95%Z :: ascii_codes "recognizer").
  { unfold splitext_root. rewrite Hdot_idx, Hsep_idx.
    replace (-1 <? Z.of_nat (length w) + 11)%Z with true by lia.
    replace (Z.to_nat (Z.of_nat (length w) + 11 - (-1 + 1)))
      with (S (length w + 10)) by lia.
    replace (Z.to_nat (-1 + 1)) with 0%nat by reflexivity.
    replace (Z.to_nat (Z.of_nat (length w) + 11)) with (length w + 11)%nat by lia.
    assert (Hnd : non_dot_between x 0 (S (length w + 10)) = true).
    { unfold x. destruct w as [|c w'].
      - reflexivity.
      - simpl. rewrite bool_decide_false; [reflexivity|].
        intros Heq. injection Heq as ->. apply Hdot. left. reflexivity. }
    rewrite Hnd. unfold x. rewrite take_after. reflexivity. }
  unfold class_name, module_name. rewrite Hbase, Hroot.
  unfold py_split. rewrite py_split_aux_app_sep.
  change (py_split_aux 95 (ascii_codes "recognizer") []) with [ascii_codes "recognizer"].
  rewrite map_app, List.concat_app. f_equal. simpl. rewrite app_nil_r.
  unfold title. rewrite title_aux_ascii; [reflexivity | exact Hdb |].
  repeat constructor; lia.
Qed.

Lemma class_name_of_recognizer_path_witness :
  class_name de_title_full de_lower_ucs4 de_is_cased
    (ascii_codes "recognizers" ++ [47%Z] ++ (228%Z :: ascii_codes "rzte") ++
     ascii_codes "_recognizer.py") =
  196%Z :: ascii_codes "rzteRecognizer".
Proof.
  rewrite (class_name_of_recognizer_path de_title_full de_lower_ucs4 de_is_cased
             (ascii_codes "recognizers") (228%Z :: ascii_codes "rzte")).
  - vm_compute. reflexivity.
  - intros c Hc. unfold de_title_full, de_lower_ucs4, de_is_cased.
    destruct (Z.eqb_spec c 228); [lia|]. destruct (Z.eqb_spec c 196); [lia|].
    split; [reflexivity|]. split; [reflexivity|]. reflexivity.
  - cbv. intros H. repeat (destruct H as [H|H]; [discriminate H|]). exact H.
  - cbv. intros H. repeat (destruct H as [H|H]; [discriminate H|]). exact H.
Defined.

(** ** [Core._run_in_parallel] when a backend raises *)

Lemma deliver_sent_child (children : list ChildEnd) (j : nat) (ents : list NamedEntity) :
  children !! j = Some (Sent ents) ->
  forall sched pipes, In j sched -> j < length pipes ->
  foldl (deliver children) pipes sched !! j = Some (Some ents).
Proof.
  intros Hc sched. induction sched as [|x sched IH]; intros pipes Hj Hlt; [destruct Hj|]. simpl.
  destruct (in_dec Nat.eq_dec j sched) as [Hin|Hnin].
  - apply IH; [exact Hin|]. rewrite length_deliver. exact Hlt.
  - destruct Hj as [->|Hin]; [|contradiction].
    rewrite deliver_unscheduled by exact Hnin.
    unfold deliver. rewrite Hc. apply list_lookup_insert_eq. exact Hlt.
Qed.

Lemma recv_all_first_empty (E : Env) (n : nat) :
  forall j pipes k,
  (forall i, i < j -> exists ents, pipes !! i = Some (Some ents)) ->
  pipes !! j = Some None ->
  recv_all E n k pipes = if parent_write_end_closed E (k + j) n then Exn EOFError else Hang.
Proof.
  induction j as [|j IH]; intros pipes k Hbefore Hj.
  - destruct pipes as [|p pipes]; [discriminate|]. simpl in Hj. injection Hj as ->.
    rewrite Nat.add_0_r. simpl. destruct (parent_write_end_closed E k n); reflexivity.
  - destruct pipes as [|p pipes]; [discriminate|]. simpl in Hj.
    destruct (Hbefore 0 ltac:(lia)) as [ents Hp]. simpl in Hp. injection Hp as ->.
    simpl. rewrite (IH pipes (S k)); [| |exact Hj].
    + replace (S k + j) with (k + S j) by lia.
      destruct (parent_write_end_closed E (k + S j) n); reflexivity.
    + intros i Hi. destruct (Hbefore (S i) ltac:(lia)) as [e' He']. exists e'. exact He'.
Qed.

(** When every backend process ends and backend [j] is the first one, in
    registration order, whose [run] raises, [_run_in_parallel] does not
    raise that exception: [conn.recv()] on pipe [j] raises [EOFError] if
    every write end of that pipe is closed, and blocks forever otherwise. *)
Theorem run_in_parallel_first_failure (E : Env) (sched : list nat) (bs : list Backend)
    (txt : string) (j : nat) (b : Backend) (e : Exc) :
  Permutation sched (seq 0 (length bs)) ->
  forallb terminates (map (fun b => child_end E b txt) bs) = true ->
  (forall i b', i < j -> bs !! i = Some b' -> exists ents, backend_run E b' txt = Ok ents) ->
  bs !! j = Some b -> backend_run E b txt = Exn e ->
  run_in_parallel E sched bs txt =
    if parent_write_end_closed E j (length bs) then Exn EOFError else Hang.
Proof.
  intros Hperm Hterm Hok Hj Hrun. unfold run_in_parallel. rewrite Hterm.
  apply (recv_all_first_empty E (length bs) j _ 0).
  - intros i Hi.
    assert (Hib : i < length bs) by (apply lookup_lt_Some in Hj; lia).
    destruct (lookup_lt_is_Some_2 bs i Hib) as [b' Hb'].
    destruct (Hok i b' Hi Hb') as [ents Hents].
    assert (Hch : map (fun b => child_end E b txt) bs !! i = Some (child_end E b' txt))
      by (rewrite list_lookup_fmap, Hb'; reflexivity).
    unfold child_end in Hch at 2. rewrite Hents in Hch.
    destruct (pickled_size E ents <=? pipe_capacity E)%nat eqn:Hsz.
    + exists ents. apply (deliver_sent_child _ _ _ Hch).
      * apply (Permutation_in _ (Permutation_sym Hperm)). apply in_seq. lia.
      * rewrite length_replicate. exact Hib.
    + exfalso. apply forallb_forall with (x := BlockedInSend) in Hterm; [discriminate|].
      apply list_elem_of_In, list_elem_of_lookup_2 with i. exact Hch.
  - assert (Hch : map (fun b => child_end E b txt) bs !! j = Some (Died e))
      by (rewrite list_lookup_fmap, Hj; simpl; unfold child_end; rewrite Hrun; reflexivity).
    rewrite deliver_unsent.
    + apply lookup_replicate_2. apply lookup_lt_Some in Hj. exact Hj.
    + intros ents. rewrite Hch. discriminate.
Qed.

Lemma run_in_parallel_first_failure_witness :
  run_in_parallel E0 [0%nat; 1%nat] [mkBackend "SpacyBackend" []; re_email_backend] "a@b.de" =
  Exn EOFError.
Proof.
  apply (run_in_parallel_first_failure E0 [0%nat; 1%nat]
           [mkBackend "SpacyBackend" []; re_email_backend] "a@b.de" 0
           (mkBackend "SpacyBackend" []) OSError).
  - vm_compute. apply Permutation_refl.
  - vm_compute. reflexivity.
  - intros i b' Hi. lia.
  - reflexivity.
  - reflexivity.
Defined.

(** ** The context-word loop of [recognize] on an unknown recognizer *)

(** With context words on, the loop raises [KeyError] on the first entity,
    in order, whose recognizer name is not a key of [core.recognizer_lookup]
    (the entities before it having a known recognizer with [CONTEXT_WORDS]);
    later entities are not looked at. *)
Theorem boost_context_words_missing_recognizer (sent : nat -> list Token)
    (lookup : gmap string RecognizerCls) (factor : Q)
    (pre post : list NamedEntity) (e : NamedEntity) :
  Forall (fun e0 => exists cls cw, lookup !! recognizer e0 = Some cls /\
                                   CONTEXT_WORDS cls = Some cw) pre ->
  lookup !! recognizer e = None ->
  boost_context_words sent lookup factor (pre ++ e :: post) = Exn (KeyError (recognizer e)).
Proof.
  intros Hpre Hnone. apply boost_context_words_first_exn; [exact Hpre|].
  unfold boost_entity. rewrite Hnone. reflexivity.
Qed.

Lemma boost_context_words_missing_recognizer_witness :
  boost_context_words (fun _ => text_tokens "mail a@b.de Ada call +4930")
    {["EmailRecognizer" := email_cls (Some ["mail"]); "PhoneRecognizer" := phone_cls]} (6#5)
    ([mkEntity 5 11 "EMAIL" "a@b.de" (19#20) "EmailRecognizer" 1 2] ++
     mkEntity 12 15 "PER" "Ada" (9#10) "StanzaNerBackend" 2 3 ::
     [mkEntity 21 26 "PHONE" "+4930" (4#5) "PhoneRecognizer" 4 5]) =
  Exn (KeyError "StanzaNerBackend").
Proof.
  apply (boost_context_words_missing_recognizer (fun _ => text_tokens "mail a@b.de Ada call +4930")
           {["EmailRecognizer" := email_cls (Some ["mail"]); "PhoneRecognizer" := phone_cls]} (6#5)
           [mkEntity 5 11 "EMAIL" "a@b.de" (19#20) "EmailRecognizer" 1 2]
           [mkEntity 21 26 "PHONE" "+4930" (4#5) "PhoneRecognizer" 4 5]
           (mkEntity 12 15 "PER" "Ada" (9#10) "StanzaNerBackend" 2 3)).
  - constructor; [|constructor].
    exists (email_cls (Some ["mail"])), ["mail"]. split; [vm_compute; reflexivity | reflexivity].
  - vm_compute. reflexivity.
Defined.
